(** * VaultSeed backend: signature authentication and nonce handling

    A shallow embedding of the Go backend of VaultSeed:

    - package [utils]    : [VerifyEthereumSignature], [GenerateNonce],
                           [GenerateMessageForSigning], [GenerateDecryptMessage];
    - package [models]   : the [User] and [EncryptedContent] rows and the
                           request structs with their [binding] tags;
    - package [database] : the two GORM tables, as lists of rows in
                           primary-key order;
    - package [handlers] : the seven gin handlers of the [/api] routes.

    Go strings are byte strings: they are [string]s of 8-bit [ascii]
    characters here, and [len] is [String.length].  A [[]byte] is a list of
    [Z] in [0, 256); arithmetic on a [byte] wraps modulo 256 ([wrap8]).

    What the code takes from outside the repository and what cannot be
    written down here (Unicode tables, Keccak, secp256k1, SQLite's type
    affinity) is collected in the class [External]; every definition and
    theorem is parametric in it, and [Toy.lib] is one executable instance
    used to run the handlers on concrete requests. *)

From Stdlib Require Import ZArith NArith List String Ascii Bool Lia.
From Stdlib Require Import DecimalString DecimalN Sorted Permutation.
Import ListNotations.

Local Open Scope string_scope.
Local Open Scope Z_scope.

(* ================================================================== *)
(** * Go: panics, indexing, slicing *)
(* ================================================================== *)

Module Go.

(** A Go expression either yields a value or panics (index or slice bounds
    out of range). *)
Inductive go (A : Type) : Type :=
| Ret (a : A)
| Panic.
Arguments Ret {A} a.
Arguments Panic {A}.

Definition bind {A B} (m : go A) (k : A -> go B) : go B :=
  match m with
  | Ret a => k a
  | Panic => Panic
  end.

Definition len (s : string) : nat := String.length s.

(** [s[i]] *)
Definition index (s : string) (i : nat) : go ascii :=
  match String.get i s with
  | Some c => Ret c
  | None => Panic
  end.

(** [s[lo:hi]] *)
Definition slice (s : string) (lo hi : nat) : go string :=
  if (lo <=? hi)%nat && (hi <=? len s)%nat
  then Ret (String.substring lo (hi - lo) s)
  else Panic.

(** [b[i]] on a byte slice *)
Definition bindex (b : list Z) (i : nat) : go Z :=
  match nth_error b i with
  | Some x => Ret x
  | None => Panic
  end.

Fixpoint set_nth (b : list Z) (i : nat) (x : Z) : option (list Z) :=
  match b, i with
  | [], _ => None
  | _ :: t, O => Some (x :: t)
  | h :: t, S i' => option_map (cons h) (set_nth t i' x)
  end.

(** [b[i] = x] on a byte slice *)
Definition bset (b : list Z) (i : nat) (x : Z) : go (list Z) :=
  match set_nth b i x with
  | Some b' => Ret b'
  | None => Panic
  end.

(** [make([]byte, n)] *)
Definition make (n : nat) : list Z := repeat 0 n.

(** [copy(dst, src)]: the first [min (len dst) (len src)] elements of [src]
    overwrite those of [dst]. *)
Definition copy (dst src : list Z) : list Z :=
  let n := Nat.min (List.length dst) (List.length src) in
  (firstn n src ++ skipn n dst)%list.

(** [uint8] arithmetic wraps. *)
Definition wrap8 (z : Z) : Z := z mod 256.

(** [[]byte(s)] *)
Definition bytes_of_string (s : string) : list Z :=
  map (fun c => Z.of_nat (nat_of_ascii c)) (list_ascii_of_string s).

(** [%d] of a non-negative integer *)
Definition itoa (n : N) : string := NilEmpty.string_of_uint (N.to_uint n).

(** [strings.HasPrefix] *)
Fixpoint HasPrefix (s p : string) : bool :=
  match p, s with
  | EmptyString, _ => true
  | String _ _, EmptyString => false
  | String a p', String b s' => Ascii.eqb a b && HasPrefix s' p'
  end.

End Go.

Import Go.

Declare Scope go_scope.
Delimit Scope go_scope with go.
Notation "x <- m ;; k" := (Go.bind m (fun x => k))
  (at level 61, m at next level, right associativity) : go_scope.

(* ================================================================== *)
(** * encoding/hex and go-ethereum's hexutil *)
(* ================================================================== *)

Module hex.

Definition inrange (lo hi c : nat) : bool := (lo <=? c)%nat && (c <=? hi)%nat.

(** [fromHexChar]: ['0'..'9'], ['a'..'f'], ['A'..'F']. *)
Definition fromHexChar (c : ascii) : option Z :=
  let n := nat_of_ascii c in
  if inrange 48 57 n then Some (Z.of_nat n - 48)
  else if inrange 97 102 n then Some (Z.of_nat n - 97 + 10)
  else if inrange 65 70 n then Some (Z.of_nat n - 65 + 10)
  else None.

(** [hex.DecodeString]: [None] is [InvalidByteError] or [ErrLength]. *)
Fixpoint DecodeString (s : string) : option (list Z) :=
  match s with
  | EmptyString => Some []
  | String _ EmptyString => None
  | String a (String b rest) =>
      match fromHexChar a, fromHexChar b, DecodeString rest with
      | Some h, Some l, Some bs => Some (h * 16 + l :: bs)
      | _, _, _ => None
      end
  end.

Definition hextable : string := "0123456789abcdef".

Definition digit (z : Z) : ascii :=
  match String.get (Z.to_nat z) hextable with
  | Some c => c
  | None => "0"%char
  end.

(** [hex.EncodeToString] *)
Fixpoint EncodeToString (b : list Z) : string :=
  match b with
  | [] => EmptyString
  | x :: t => String (digit (x / 16)) (String (digit (x mod 16)) (EncodeToString t))
  end.

End hex.

Module hexutil.

Definition has0xPrefix (input : string) : bool :=
  match input with
  | String a (String b _) =>
      Ascii.eqb a "0" && (Ascii.eqb b "x" || Ascii.eqb b "X")
  | _ => false
  end.

(** [hexutil.Decode]: [None] is any of its errors (empty string, missing
    prefix, odd length, invalid character). *)
Definition Decode (input : string) : option (list Z) :=
  if (len input =? 0)%nat then None
  else if negb (has0xPrefix input) then None
  else hex.DecodeString (String.substring 2 (len input - 2) input).

End hexutil.

(* ================================================================== *)
(** * What the code takes from outside the repository *)
(* ================================================================== *)

Class External : Type := {
  (** [*ecdsa.PublicKey] *)
  PublicKey : Type;
  (** [strings.TrimSpace] (Unicode white space) *)
  strings_TrimSpace : string -> string;
  (** [strings.ToLower] (Unicode lower case) *)
  strings_ToLower : string -> string;
  (** [crypto.Keccak256Hash(data).Bytes()] *)
  crypto_Keccak256Hash : list Z -> list Z;
  (** [crypto.SigToPub(hash, sig)]; [None] is its error *)
  crypto_SigToPub : list Z -> list Z -> option PublicKey;
  (** [crypto.PubkeyToAddress(pub).Hex()] *)
  crypto_PubkeyToAddress_Hex : PublicKey -> string;
  (** validator's length of a string for [max=] (a count of runes) *)
  utf8_RuneCountInString : string -> nat;
  (** SQLite's [id = ?] for an INTEGER column and a bound TEXT value *)
  sqlite_int_eq_text : N -> string -> bool
}.

(* ================================================================== *)
(** * package models *)
(* ================================================================== *)

Module models.

(** Times ([time.Time]) are numbers; [0] is the zero time. *)
Record User : Type := {
  User_ID : N;
  User_Address : string;
  User_PublicKey : string;
  User_Nonce : string;
  User_CreatedAt : Z;
  User_UpdatedAt : Z
}.

Record EncryptedContent : Type := {
  Content_ID : N;
  Content_UserAddress : string;
  Content_Title : string;
  Content_EncryptedData : string;
  Content_EncryptedKey : string;
  Content_IV : string;
  Content_Nonce : string;
  Content_CreatedAt : Z;
  Content_UpdatedAt : Z
}.

Record LoginRequest : Type := {
  Login_Address : string;
  Login_Signature : string;
  Login_Message : string;
  Login_Nonce : string
}.

Record RegisterPublicKeyRequest : Type := {
  Register_Address : string;
  Register_PublicKey : string;
  Register_Signature : string;
  Register_Message : string
}.

Record CreateContentRequest : Type := {
  Create_Title : string;
  Create_EncryptedKey : string;
  Create_IV : string;
  Create_EncryptedData : string
}.

Record DecryptContentRequest : Type := {
  Decrypt_ContentID : N;
  Decrypt_Signature : string;
  Decrypt_Message : string;
  Decrypt_Nonce : string
}.

(** [binding:"required"] on a string: it is not the zero value. *)
Definition required (s : string) : bool := negb (len s =? 0)%nat.

(** [binding:"required"] on a [uint]. *)
Definition requiredN (n : N) : bool := negb (n =? 0)%N.

Definition LoginRequest_binding (r : LoginRequest) : bool :=
  required (Login_Address r) && required (Login_Signature r)
  && required (Login_Message r) && required (Login_Nonce r).

Definition RegisterPublicKeyRequest_binding (r : RegisterPublicKeyRequest) : bool :=
  required (Register_Address r) && required (Register_PublicKey r)
  && required (Register_Signature r) && required (Register_Message r).

Definition CreateContentRequest_binding {E : External}
           (r : CreateContentRequest) : bool :=
  required (Create_Title r)
  && (utf8_RuneCountInString (Create_Title r) <=? 100)%nat
  && required (Create_EncryptedKey r) && required (Create_IV r)
  && required (Create_EncryptedData r).

Definition DecryptContentRequest_binding (r : DecryptContentRequest) : bool :=
  requiredN (Decrypt_ContentID r) && required (Decrypt_Signature r)
  && required (Decrypt_Message r) && required (Decrypt_Nonce r).

(** [user.Nonce = n] and [user.PublicKey = k], [content.Nonce = n] *)
Definition User_with_Nonce (u : User) (n : string) : User :=
  {| User_ID := User_ID u; User_Address := User_Address u;
     User_PublicKey := User_PublicKey u; User_Nonce := n;
     User_CreatedAt := User_CreatedAt u; User_UpdatedAt := User_UpdatedAt u |}.

Definition User_with_PublicKey (u : User) (k : string) : User :=
  {| User_ID := User_ID u; User_Address := User_Address u;
     User_PublicKey := k; User_Nonce := User_Nonce u;
     User_CreatedAt := User_CreatedAt u; User_UpdatedAt := User_UpdatedAt u |}.

Definition Content_with_Nonce (c : EncryptedContent) (n : string) : EncryptedContent :=
  {| Content_ID := Content_ID c; Content_UserAddress := Content_UserAddress c;
     Content_Title := Content_Title c;
     Content_EncryptedData := Content_EncryptedData c;
     Content_EncryptedKey := Content_EncryptedKey c;
     Content_IV := Content_IV c; Content_Nonce := n;
     Content_CreatedAt := Content_CreatedAt c;
     Content_UpdatedAt := Content_UpdatedAt c |}.

(** GORM's [updated_at] on a write. *)
Definition User_with_UpdatedAt (u : User) (t : Z) : User :=
  {| User_ID := User_ID u; User_Address := User_Address u;
     User_PublicKey := User_PublicKey u; User_Nonce := User_Nonce u;
     User_CreatedAt := User_CreatedAt u; User_UpdatedAt := t |}.

Definition Content_with_UpdatedAt (c : EncryptedContent) (t : Z) : EncryptedContent :=
  {| Content_ID := Content_ID c; Content_UserAddress := Content_UserAddress c;
     Content_Title := Content_Title c;
     Content_EncryptedData := Content_EncryptedData c;
     Content_EncryptedKey := Content_EncryptedKey c;
     Content_IV := Content_IV c; Content_Nonce := Content_Nonce c;
     Content_CreatedAt := Content_CreatedAt c; Content_UpdatedAt := t |}.

End models.

Import models.

(* ================================================================== *)
(** * gin: requests, responses, and the flow of a handler *)
(* ================================================================== *)

Module gin.

(** JSON values as the handlers build them. *)
#[warnings="-register-all"]
Inductive json : Type :=
| JBool (b : bool)
| JNum (n : N)
| JStr (s : string)
| JTime (t : Z)
| JArr (l : list json)
| JObj (fields : list (string * json)).

Record Response : Type := { Status : Z; Body : json }.

Definition StatusOK : Z := 200.
Definition StatusBadRequest : Z := 400.
Definition StatusUnauthorized : Z := 401.
Definition StatusNotFound : Z := 404.
Definition StatusInternalServerError : Z := 500.

(** The request as a handler reads it: the decoded JSON body ([None] when
    the body is not JSON of the request's shape), headers, query and path
    parameters (absent ones read as the empty string). *)
Record Context (R : Type) : Type := {
  JSON : option R;
  GetHeader : string -> string;
  Query : string -> string;
  Param : string -> string
}.
Arguments JSON {R} c.
Arguments GetHeader {R} c _.
Arguments Query {R} c _.
Arguments Param {R} c _.

(** [c.ShouldBindJSON(&req)]: decoding, then the [binding] tags. *)
Definition ShouldBindJSON {R} (c : Context R) (binding : R -> bool) : option R :=
  match JSON c with
  | Some r => if binding r then Some r else None
  | None => None
  end.

(** A [gin.H] is a map: encoding/json writes its keys in sorted order.
    A struct is written in the order of its fields. *)

(** [models.ErrorResponse{Error: e}] *)
Definition ErrorResponse (e : string) : json := JObj [("error", JStr e)].

(** [models.LoginResponse]: [token] and [message] are [omitempty]. *)
Definition LoginResponse (success : bool) (token address message : string) : json :=
  JObj ([("success", JBool success)]
        ++ (if (len token =? 0)%nat then [] else [("token", JStr token)])
        ++ [("address", JStr address)]
        ++ (if (len message =? 0)%nat then [] else [("message", JStr message)]))%list.

Definition ContentResponse (id : N) (title : string) (createdAt : Z) : json :=
  JObj [("id", JNum id); ("title", JStr title); ("created_at", JTime createdAt)].

Definition ContentDetailResponse (id : N) (title content : string) (createdAt : Z) : json :=
  JObj [("id", JNum id); ("title", JStr title); ("content", JStr content);
        ("created_at", JTime createdAt)].

End gin.

Import gin.

(* ================================================================== *)
(** * The server's state and the handler monad *)
(* ================================================================== *)

(** The two tables in primary-key order, the AUTOINCREMENT counters, the
    bytes [crypto/rand] will deliver next, and the wall clock. *)
Record World : Type := {
  users : list User;
  contents : list EncryptedContent;
  users_seq : N;
  contents_seq : N;
  entropy : list Z;
  now : Z
}.

Definition with_users (w : World) (us : list User) (seq : N) : World :=
  {| users := us; contents := contents w; users_seq := seq;
     contents_seq := contents_seq w; entropy := entropy w; now := now w |}.

Definition with_contents (w : World) (cs : list EncryptedContent) (seq : N) : World :=
  {| users := users w; contents := cs; users_seq := users_seq w;
     contents_seq := seq; entropy := entropy w; now := now w |}.

Definition with_entropy (w : World) (e : list Z) : World :=
  {| users := users w; contents := contents w; users_seq := users_seq w;
     contents_seq := contents_seq w; entropy := e; now := now w |}.

(** A handler runs on until it writes its response and returns. *)
Inductive flow (A : Type) : Type :=
| Continue (a : A)
| Return (r : Response).
Arguments Continue {A} a.
Arguments Return {A} r.

Definition H (A : Type) : Type := World -> flow A * World.

Definition ret {A} (a : A) : H A := fun w => (Continue a, w).

Definition hbind {A B} (m : H A) (k : A -> H B) : H B :=
  fun w =>
    match m w with
    | (Continue a, w') => k a w'
    | (Return r, w') => (Return r, w')
    end.

(** [c.JSON(status, body); return] *)
Definition respond {A} (status : Z) (body : json) : H A :=
  fun w => (Return {| Status := status; Body := body |}, w).

(** A panic inside a handler is caught by the Recovery middleware of
    [gin.Default()], which answers 500 with an empty body. *)
Definition recovered : Response :=
  {| Status := StatusInternalServerError; Body := JObj [] |}.

Definition lift {A} (g : go A) : H A :=
  fun w =>
    match g with
    | Ret a => (Continue a, w)
    | Panic => (Return recovered, w)
    end.

(** The response of a handler and the state it leaves.  A handler that
    returned without writing gets gin's default, an empty 200. *)
Definition serve (h : H unit) (w : World) : Response * World :=
  match h w with
  | (Return r, w') => (r, w')
  | (Continue _, w') => ({| Status := StatusOK; Body := JObj [] |}, w')
  end.

Declare Scope handler_scope.
Delimit Scope handler_scope with handler.
Notation "x <- m ;; k" := (hbind m (fun x => k))
  (at level 61, m at next level, right associativity) : handler_scope.

(* ================================================================== *)
(** * package utils *)
(* ================================================================== *)

Module utils.
Section WithExternal.
Context {E : External}.

Local Open Scope go_scope.

Definition quote : ascii := ascii_of_nat 34.

(** The [if] that strips one pair of enclosing quotes.  [&&] evaluates
    its right operand only when the left one is true. *)
Definition stripQuotes (cleanedMessage : string) : go string :=
  if (2 <=? len cleanedMessage)%nat then
    c0 <- index cleanedMessage 0 ;;
    if Ascii.eqb c0 quote then
      cl <- index cleanedMessage (len cleanedMessage - 1) ;;
      if Ascii.eqb cl quote
      then slice cleanedMessage 1 (len cleanedMessage - 1)
      else Ret cleanedMessage
    else Ret cleanedMessage
  else Ret cleanedMessage.

(** The value stored in [adjustedSigBytes[64]] for a parity byte [v]. *)
Definition adjustV (v : Z) : Z :=
  if (v =? 27) || (v =? 28) then wrap8 (v - 27)
  else if (v =? 0) || (v =? 1) then v
  else if v >=? 35 then wrap8 (v - 35 - 2)
  else if v >=? 27 then wrap8 (v - 27)
  else 0.

(** The block [adjustedSigBytes := make(...); copy(...); v := sigBytes[64];
    if ... ] of [VerifyEthereumSignature]. *)
Definition adjustSignature (sigBytes : list Z) : go (list Z) :=
  let adjustedSigBytes := copy (make 65) sigBytes in
  v <- bindex sigBytes 64 ;;
  if (v =? 27) || (v =? 28) then bset adjustedSigBytes 64 (wrap8 (v - 27))
  else if (v =? 0) || (v =? 1) then Ret adjustedSigBytes
  else if v >=? 35 then bset adjustedSigBytes 64 (wrap8 (v - 35 - 2))
  else if v >=? 27 then bset adjustedSigBytes 64 (wrap8 (v - 27))
  else bset adjustedSigBytes 64 0.

(** ["\x19Ethereum Signed Message:\n%d%s"] *)
Definition signedMessagePrefix (n : nat) (cleanedMessage : string) : string :=
  String (ascii_of_nat 25) "Ethereum Signed Message:"
  ++ String (ascii_of_nat 10) (itoa (N.of_nat n))
  ++ cleanedMessage.

(** The lines under "clean the message". *)
Definition cleanMessage (message : string) : go string :=
  let cleanedMessage := strings_TrimSpace message in
  cleanedMessage <- stripQuotes cleanedMessage ;;
  Ret (strings_TrimSpace cleanedMessage).

(** [if !strings.HasPrefix(signature, "0x") { signature = "0x" + signature }] *)
Definition ensure0x (signature : string) : string :=
  if negb (HasPrefix signature "0x") then "0x" ++ signature else signature.

(** The Ethereum signed-message hash of the cleaned message. *)
Definition messageHash (cleanedMessage : string) : list Z :=
  let msgBytes := bytes_of_string cleanedMessage in
  let prefix := signedMessagePrefix (List.length msgBytes) cleanedMessage in
  crypto_Keccak256Hash (bytes_of_string prefix).

Definition VerifyEthereumSignature
           (message signature expectedAddress : string) : go bool :=
  cleanedMessage <- cleanMessage message ;;
  let signature := ensure0x signature in
  match hexutil.Decode signature with
  | None => Ret false
  | Some sigBytes =>
      if negb (List.length sigBytes =? 65)%nat then Ret false
      else
        adjustedSigBytes <- adjustSignature sigBytes ;;
        let hash := messageHash cleanedMessage in
        match crypto_SigToPub hash adjustedSigBytes with
        | None => Ret false
        | Some pubKey =>
            let recoveredAddr := crypto_PubkeyToAddress_Hex pubKey in
            Ret (String.eqb (strings_ToLower recoveredAddr)
                            (strings_ToLower expectedAddress))
        end
  end.

(** [rand.Read(bytes)]: the next [n] bytes of the random source, or its
    error when the source cannot deliver them. *)
Definition rand_Read (n : nat) : H (option (list Z)) :=
  fun w =>
    if (n <=? List.length (entropy w))%nat
    then (Continue (Some (firstn n (entropy w))),
          with_entropy w (skipn n (entropy w)))
    else (Continue None, w).

(** [GenerateNonce]: [None] is the error of [rand.Read]. *)
Definition GenerateNonce : H (option string) :=
  hbind (rand_Read 32) (fun bytes =>
  match bytes with
  | None => ret None
  | Some bytes => ret (Some (hex.EncodeToString bytes))
  end).

Definition GenerateMessageForSigning (address nonce : string) : string :=
  "Sign this message to authenticate with VaultSeed. Address: "
  ++ address ++ ", Nonce: " ++ nonce.

Definition GenerateDecryptMessage (contentID : N) (nonce : string) : string :=
  "Sign this message to decrypt content. Content ID: "
  ++ itoa contentID ++ ", Nonce: " ++ nonce.

End WithExternal.
End utils.

(* ================================================================== *)
(** * package database: the GORM calls the handlers make *)
(* ================================================================== *)

Module database.

(** The tables live in the [World]; the store itself is reliable, so of
    GORM's errors only "record not found" and a violated unique index
    arise.  The handlers' branches for other errors are kept. *)
Inductive gorm_error : Type :=
| ErrRecordNotFound
| ErrOther.

(** [db.Where("address = ?", a)] on [users] (SQLite compares byte-wise) *)
Definition Where_address (a : string) (u : User) : bool :=
  String.eqb (User_Address u) a.

(** [db.Where("user_address = ?", a)] on [encrypted_contents] *)
Definition Where_user_address (a : string) (c : EncryptedContent) : bool :=
  String.eqb (Content_UserAddress c) a.

(** [db.Where("id = ? AND user_address = ?", id, a)] with an integer [id] *)
Definition Where_id_user_address (id : N) (a : string) (c : EncryptedContent) : bool :=
  (Content_ID c =? id)%N && String.eqb (Content_UserAddress c) a.

(** The same with the text of the path parameter bound to [id]. *)
Definition Where_idtext_user_address {E : External}
           (id : string) (a : string) (c : EncryptedContent) : bool :=
  sqlite_int_eq_text (Content_ID c) id && String.eqb (Content_UserAddress c) a.

(** [.First(&row)]: the matching row of least primary key. *)
Definition First_User (p : User -> bool) : H (User + gorm_error) :=
  fun w =>
    match find p (users w) with
    | Some u => (Continue (inl u), w)
    | None => (Continue (inr ErrRecordNotFound), w)
    end.

Definition First_Content (p : EncryptedContent -> bool)
  : H (EncryptedContent + gorm_error) :=
  fun w =>
    match find p (contents w) with
    | Some c => (Continue (inl c), w)
    | None => (Continue (inr ErrRecordNotFound), w)
    end.

(** [db.Create(&user)] for a row whose [ID] is zero: the row gets the next
    id and the time of the call; the unique index on [address] rejects a
    second row for an address. *)
Definition Create_User (u : User) : H (User + gorm_error) :=
  fun w =>
    if existsb (Where_address (User_Address u)) (users w)
    then (Continue (inr ErrOther), w)
    else
      let id := (users_seq w + 1)%N in
      let row := {| User_ID := id; User_Address := User_Address u;
                    User_PublicKey := User_PublicKey u;
                    User_Nonce := User_Nonce u;
                    User_CreatedAt := now w; User_UpdatedAt := now w |} in
      (Continue (inl row), with_users w (users w ++ [row])%list id).

Definition Create_Content (c : EncryptedContent) : H (EncryptedContent + gorm_error) :=
  fun w =>
    let id := (contents_seq w + 1)%N in
    let row := {| Content_ID := id;
                  Content_UserAddress := Content_UserAddress c;
                  Content_Title := Content_Title c;
                  Content_EncryptedData := Content_EncryptedData c;
                  Content_EncryptedKey := Content_EncryptedKey c;
                  Content_IV := Content_IV c;
                  Content_Nonce := Content_Nonce c;
                  Content_CreatedAt := now w; Content_UpdatedAt := now w |} in
    (Continue (inl row), with_contents w (contents w ++ [row])%list id).

(** [db.Save(&user)] for a row with a primary key: every column of the
    row with that key is overwritten (and [updated_at] set); when no row
    has the key the row is inserted. *)
Definition Save_User (u : User) : H (option gorm_error) :=
  fun w =>
    let row := User_with_UpdatedAt u (now w) in
    let same (r : User) := (User_ID r =? User_ID u)%N in
    if existsb same (users w)
    then (Continue None,
          with_users w (map (fun r => if same r then row else r) (users w))
                     (users_seq w))
    else (Continue None,
          with_users w (users w ++ [row])%list (N.max (users_seq w) (User_ID u))).

Definition Save_Content (c : EncryptedContent) : H (option gorm_error) :=
  fun w =>
    let row := Content_with_UpdatedAt c (now w) in
    let same (r : EncryptedContent) := (Content_ID r =? Content_ID c)%N in
    if existsb same (contents w)
    then (Continue None,
          with_contents w (map (fun r => if same r then row else r) (contents w))
                        (contents_seq w))
    else (Continue None,
          with_contents w (contents w ++ [row])%list
                        (N.max (contents_seq w) (Content_ID c))).

(** [ORDER BY created_at DESC]: a stable insertion sort, newest first
    (SQLite leaves the order of rows of equal time open). *)
Fixpoint insert_desc (c : EncryptedContent) (l : list EncryptedContent)
  : list EncryptedContent :=
  match l with
  | [] => [c]
  | h :: t =>
      if Content_CreatedAt h <=? Content_CreatedAt c
      then c :: h :: t
      else h :: insert_desc c t
  end.

Definition order_created_at_desc (l : list EncryptedContent) : list EncryptedContent :=
  fold_right insert_desc [] l.

(** [db.Where(...).Order("created_at DESC").Find(&contents)] *)
Definition Find_Contents (p : EncryptedContent -> bool)
  : H (list EncryptedContent + gorm_error) :=
  fun w => (Continue (inl (order_created_at_desc (filter p (contents w)))), w).

End database.

(* ================================================================== *)
(** * package handlers *)
(* ================================================================== *)

Module handlers.
Import database.
Section WithExternal.
Context {E : External}.

Local Open Scope handler_scope.

(** auth.go *)

Definition LoginHandler (c : Context LoginRequest) : H unit :=
  match ShouldBindJSON c LoginRequest_binding with
  | None => respond StatusBadRequest (ErrorResponse "Invalid request format")
  | Some req =>
  valid <- lift (utils.VerifyEthereumSignature
                   (Login_Message req) (Login_Signature req) (Login_Address req)) ;;
  if negb valid
  then respond StatusUnauthorized (ErrorResponse "Invalid signature")
  else
  result <- First_User (Where_address (Login_Address req)) ;;
  user <- match result with
          | inr ErrRecordNotFound =>
              nonce <- utils.GenerateNonce ;;
              match nonce with
              | None => respond StatusInternalServerError
                                (ErrorResponse "Failed to generate nonce")
              | Some nonce =>
                  created <- Create_User
                    {| User_ID := 0; User_Address := Login_Address req;
                       User_PublicKey := EmptyString; User_Nonce := nonce;
                       User_CreatedAt := 0; User_UpdatedAt := 0 |} ;;
                  match created with
                  | inr _ => respond StatusInternalServerError
                                     (ErrorResponse "Failed to create user")
                  | inl user => ret user
                  end
              end
          | inr _ => respond StatusInternalServerError
                             (ErrorResponse "Database error")
          | inl user => ret user
          end ;;
  newNonce <- utils.GenerateNonce ;;
  match newNonce with
  | None => respond StatusInternalServerError
                    (ErrorResponse "Failed to generate nonce")
  | Some newNonce =>
      let user := User_with_Nonce user newNonce in
      _ <- Save_User user ;;
      let token := Login_Address req ++ ":" ++ newNonce in
      respond StatusOK
              (LoginResponse true token (Login_Address req) EmptyString)
  end
  end.

Definition RegisterPublicKeyHandler (c : Context RegisterPublicKeyRequest) : H unit :=
  match ShouldBindJSON c RegisterPublicKeyRequest_binding with
  | None => respond StatusBadRequest (ErrorResponse "Invalid request format")
  | Some req =>
  valid <- lift (utils.VerifyEthereumSignature
                   (Register_Message req) (Register_Signature req)
                   (Register_Address req)) ;;
  if negb valid
  then respond StatusUnauthorized (ErrorResponse "Invalid signature")
  else
  result <- First_User (Where_address (Register_Address req)) ;;
  match result with
  | inr _ => respond StatusNotFound (ErrorResponse "User not found")
  | inl user =>
      let user := User_with_PublicKey user (Register_PublicKey req) in
      saved <- Save_User user ;;
      match saved with
      | Some _ => respond StatusInternalServerError
                          (ErrorResponse "Failed to save public key")
      | None => respond StatusOK (JObj [("success", JBool true)])
      end
  end
  end.

Definition GetNonceHandler (c : Context unit) : H unit :=
  let address := Query c "address" in
  if (len address =? 0)%nat
  then respond StatusBadRequest (ErrorResponse "Address is required")
  else
  result <- First_User (Where_address address) ;;
  nonce <- match result with
           | inr ErrRecordNotFound =>
               newNonce <- utils.GenerateNonce ;;
               match newNonce with
               | None => respond StatusInternalServerError
                                 (ErrorResponse "Failed to generate nonce")
               | Some newNonce => ret newNonce
               end
           | inr _ => respond StatusInternalServerError
                              (ErrorResponse "Database error")
           | inl user => ret (User_Nonce user)
           end ;;
  respond StatusOK (JObj [("nonce", JStr nonce)]).

(** content.go *)

(** The lines every content handler has after reading the header:
    [userAddress = authHeader], cut to its first 42 bytes when longer. *)
Definition userAddressOf (authHeader : string) : go string :=
  if (0 <? len authHeader)%nat then
    if (42 <? len authHeader)%nat then slice authHeader 0 42
    else Ret authHeader
  else Ret EmptyString.

Definition CreateContentHandler (c : Context CreateContentRequest) : H unit :=
  match ShouldBindJSON c CreateContentRequest_binding with
  | None => respond StatusBadRequest (ErrorResponse "Invalid request format")
  | Some req =>
  let authHeader := GetHeader c "Authorization" in
  if (len authHeader =? 0)%nat
  then respond StatusUnauthorized (ErrorResponse "Missing authorization header")
  else
  userAddress <- lift (userAddressOf authHeader) ;;
  found <- First_User (Where_address userAddress) ;;
  match found with
  | inr _ => respond StatusUnauthorized (ErrorResponse "User not found")
  | inl _ =>
  nonce <- utils.GenerateNonce ;;
  match nonce with
  | None => respond StatusInternalServerError
                    (ErrorResponse "Failed to generate nonce")
  | Some nonce =>
      created <- Create_Content
        {| Content_ID := 0; Content_UserAddress := userAddress;
           Content_Title := Create_Title req;
           Content_EncryptedData := Create_EncryptedData req;
           Content_EncryptedKey := Create_EncryptedKey req;
           Content_IV := Create_IV req; Content_Nonce := nonce;
           Content_CreatedAt := 0; Content_UpdatedAt := 0 |} ;;
      match created with
      | inr _ => respond StatusInternalServerError
                         (ErrorResponse "Failed to save content")
      | inl content =>
          respond StatusOK
                  (JObj [("id", JNum (Content_ID content));
                         ("success", JBool true)])
      end
  end
  end
  end.

Definition ListContentHandler (c : Context unit) : H unit :=
  let authHeader := GetHeader c "Authorization" in
  if (len authHeader =? 0)%nat
  then respond StatusUnauthorized (ErrorResponse "Missing authorization header")
  else
  userAddress <- lift (userAddressOf authHeader) ;;
  found <- Find_Contents (Where_user_address userAddress) ;;
  match found with
  | inr _ => respond StatusInternalServerError
                     (ErrorResponse "Failed to fetch content")
  | inl contents =>
      let response :=
        map (fun content =>
               ContentResponse (Content_ID content) (Content_Title content)
                               (Content_CreatedAt content)) contents in
      respond StatusOK
              (JObj [("contents", JArr response); ("success", JBool true)])
  end.

Definition DecryptContentHandler (c : Context DecryptContentRequest) : H unit :=
  match ShouldBindJSON c DecryptContentRequest_binding with
  | None => respond StatusBadRequest (ErrorResponse "Invalid request format")
  | Some req =>
  let authHeader := GetHeader c "Authorization" in
  if (len authHeader =? 0)%nat
  then respond StatusUnauthorized (ErrorResponse "Missing authorization header")
  else
  userAddress <- lift (userAddressOf authHeader) ;;
  let expectedMessage :=
    utils.GenerateDecryptMessage (Decrypt_ContentID req) (Decrypt_Nonce req) in
  valid <- lift (utils.VerifyEthereumSignature
                   expectedMessage (Decrypt_Signature req) userAddress) ;;
  if negb valid
  then respond StatusUnauthorized (ErrorResponse "Invalid signature")
  else
  found <- First_Content
             (Where_id_user_address (Decrypt_ContentID req) userAddress) ;;
  match found with
  | inr ErrRecordNotFound =>
      respond StatusNotFound (ErrorResponse "Content not found")
  | inr _ =>
      respond StatusInternalServerError (ErrorResponse "Failed to fetch content")
  | inl content =>
  if negb (String.eqb (Content_Nonce content) (Decrypt_Nonce req))
  then respond StatusUnauthorized (ErrorResponse "Invalid nonce")
  else
  newNonce <- utils.GenerateNonce ;;
  match newNonce with
  | None => respond StatusInternalServerError
                    (ErrorResponse "Failed to generate nonce")
  | Some newNonce =>
      let content := Content_with_Nonce content newNonce in
      _ <- Save_Content content ;;
      respond StatusOK
        (JObj [("content",
                ContentDetailResponse (Content_ID content) (Content_Title content)
                                      "[ENCRYPTED - DECRYPT ON CLIENT]"
                                      (Content_CreatedAt content));
               ("encrypted_data", JStr (Content_EncryptedData content));
               ("encrypted_key", JStr (Content_EncryptedKey content));
               ("iv", JStr (Content_IV content));
               ("success", JBool true)])
  end
  end
  end.

Definition GetContentDetailHandler (c : Context unit) : H unit :=
  let contentID := Param c "id" in
  if (len contentID =? 0)%nat
  then respond StatusBadRequest (ErrorResponse "Content ID is required")
  else
  let authHeader := GetHeader c "Authorization" in
  if (len authHeader =? 0)%nat
  then respond StatusUnauthorized (ErrorResponse "Missing authorization header")
  else
  userAddress <- lift (userAddressOf authHeader) ;;
  found <- First_Content (Where_idtext_user_address contentID userAddress) ;;
  match found with
  | inr ErrRecordNotFound =>
      respond StatusNotFound (ErrorResponse "Content not found")
  | inr _ =>
      respond StatusInternalServerError (ErrorResponse "Failed to fetch content")
  | inl content =>
      respond StatusOK
        (JObj [("content",
                JObj [("created_at", JTime (Content_CreatedAt content));
                      ("id", JNum (Content_ID content));
                      ("nonce", JStr (Content_Nonce content));
                      ("title", JStr (Content_Title content))]);
               ("success", JBool true)])
  end.

End WithExternal.
End handlers.

(* ================================================================== *)
(** * An executable instance of [External] *)
(* ================================================================== *)

(** ASCII white space and lower case, a 32-byte checksum in place of
    Keccak, and a transparent recoverable "signature": the 65 bytes
    [hash ++ key ++ padding ++ [v]] recover to [key] when [hash] is the
    hash they are checked against and [v] is 0, and to some other key
    otherwise; as in go-ethereum, a recovery id above 3 is an error. *)
Module Toy.

Definition isSpace (c : ascii) : bool :=
  let n := nat_of_ascii c in
  hex.inrange 9 13 n || (n =? 32)%nat.

Fixpoint trimLeft (l : list ascii) : list ascii :=
  match l with
  | [] => []
  | c :: t => if isSpace c then trimLeft t else l
  end.

Definition TrimSpace (s : string) : string :=
  string_of_list_ascii
    (rev (trimLeft (rev (trimLeft (list_ascii_of_string s))))).

Definition lower (c : ascii) : ascii :=
  let n := nat_of_ascii c in
  if hex.inrange 65 90 n then ascii_of_nat (n + 32) else c.

Definition ToLower (s : string) : string :=
  string_of_list_ascii (map lower (list_ascii_of_string s)).

Definition checksum (data : list Z) : list Z :=
  map (fun i => fold_left (fun acc b => (acc * 31 + b + 7) mod 256) data (Z.of_nat i))
      (seq 0 32).

Definition eqb_bytes (a b : list Z) : bool :=
  (List.length a =? List.length b)%nat
  && forallb (fun p => fst p =? snd p) (combine a b).

Definition recover (hash sig : list Z) : option (list Z) :=
  if negb (List.length sig =? 65)%nat then None
  else
    let v := nth 64 sig 0 in
    if 4 <=? v then None
    else
      let key := firstn 20 (skipn 32 sig) in
      if eqb_bytes (firstn 32 sig) hash
      then Some (map (fun b => (b + v) mod 256) key)
      else Some (map (fun b => (b + v + 1) mod 256) (firstn 20 hash)).

Definition addressHex (key : list Z) : string := "0x" ++ hex.EncodeToString key.

Definition parseN (s : string) : option N :=
  option_map N.of_uint (NilEmpty.uint_of_string s).

#[export] Instance lib : External := {|
  PublicKey := list Z;
  strings_TrimSpace := TrimSpace;
  strings_ToLower := ToLower;
  crypto_Keccak256Hash := checksum;
  crypto_SigToPub := recover;
  crypto_PubkeyToAddress_Hex := addressHex;
  utf8_RuneCountInString := String.length;
  sqlite_int_eq_text := fun id s =>
    match parseN s with Some n => (n =? id)%N | None => false end
|}.

(** The signature of [key] (20 bytes) over [message], with the parity
    byte written as [v]. *)
Definition sign (key : list Z) (message : string) (v : Z) : string :=
  let hash :=
    checksum (bytes_of_string
                (utils.signedMessagePrefix (len message) message)) in
  "0x" ++ hex.EncodeToString (hash ++ key ++ repeat 0 12 ++ [v])%list.

(** A key and its address. *)
Definition alice_key : list Z := map Z.of_nat (seq 1 20).
Definition alice : string := addressHex alice_key.

Definition bob_key : list Z := map Z.of_nat (seq 101 20).
Definition bob : string := addressHex bob_key.

(** A request whose only header is [Authorization]. *)
Definition request {R} (body : option R) (authorization : string)
           (query_address param_id : string) : Context R :=
  {| JSON := body;
     GetHeader := fun k => if String.eqb k "Authorization" then authorization
                           else EmptyString;
     Query := fun k => if String.eqb k "address" then query_address
                       else EmptyString;
     Param := fun k => if String.eqb k "id" then param_id else EmptyString |}.

Definition empty_world (random : list Z) : World :=
  {| users := []; contents := []; users_seq := 0; contents_seq := 0;
     entropy := random; now := 1700000000 |}.

(** 32 bytes of value [b]; their nonce is the hex digit pair repeated. *)
Definition draw (b : Z) : list Z := repeat b 32.

Definition nonce_of (b : Z) : string := hex.EncodeToString (draw b).

(** Requests. *)
Definition login (address message signature nonce : string)
  : Context LoginRequest :=
  request (Some {| Login_Address := address; Login_Signature := signature;
                   Login_Message := message; Login_Nonce := nonce |})
          EmptyString EmptyString EmptyString.

Definition decrypt (authorization : string) (id : N)
           (message signature nonce : string)
  : Context DecryptContentRequest :=
  request (Some {| Decrypt_ContentID := id; Decrypt_Signature := signature;
                   Decrypt_Message := message; Decrypt_Nonce := nonce |})
          authorization EmptyString EmptyString.

Definition get_nonce (address : string) : Context unit :=
  request None EmptyString address EmptyString.

Definition create (authorization title : string) : Context CreateContentRequest :=
  request (Some {| Create_Title := title; Create_EncryptedKey := "wrapped key";
                   Create_IV := "iv"; Create_EncryptedData := "ciphertext" |})
          authorization EmptyString EmptyString.

Definition register (address publicKey message signature : string)
  : Context RegisterPublicKeyRequest :=
  request (Some {| Register_Address := address;
                   Register_PublicKey := publicKey;
                   Register_Signature := signature;
                   Register_Message := message |})
          EmptyString EmptyString EmptyString.

Definition list_contents (authorization : string) : Context unit :=
  request None authorization EmptyString EmptyString.

Definition get_detail (authorization id : string) : Context unit :=
  request None authorization EmptyString id.

(** A server on which alice and bob are known and alice owns record 1;
    carol is not known. *)
Definition carol : string := addressHex (map Z.of_nat (seq 201 20)).

Definition alice_row : User :=
  {| User_ID := 1; User_Address := alice; User_PublicKey := EmptyString;
     User_Nonce := nonce_of 160;
     User_CreatedAt := 1690000000; User_UpdatedAt := 1690000000 |}.

Definition bob_row : User :=
  {| User_ID := 2; User_Address := bob; User_PublicKey := EmptyString;
     User_Nonce := nonce_of 176;
     User_CreatedAt := 1690000100; User_UpdatedAt := 1690000100 |}.

Definition record1 : EncryptedContent :=
  {| Content_ID := 1; Content_UserAddress := alice;
     Content_Title := "seed phrase";
     Content_EncryptedData := "ciphertext";
     Content_EncryptedKey := "wrapped key";
     Content_IV := "iv";
     Content_Nonce := nonce_of 192;
     Content_CreatedAt := 1690000200;
     Content_UpdatedAt := 1690000200 |}.

Definition vault : World :=
  {| users := [alice_row; bob_row];
     contents := [record1];
     users_seq := 2;
     contents_seq := 1;
     entropy := draw 3 ++ draw 4 ++ draw 5 ++ draw 6;
     now := 1700000000 |}.

(** alice signs a message that is no challenge, and the login challenge
    for the nonce the server holds for her. *)
Definition hello_login : Context LoginRequest :=
  login alice "hello" (sign alice_key "hello" 0) "whatever".

Definition challenge_login : Context LoginRequest :=
  let message := utils.GenerateMessageForSigning alice (nonce_of 160) in
  login alice message (sign alice_key message 0) (nonce_of 160).

(** A decrypt request for record [id] with the challenge for [nonce]
    signed with [key]. *)
Definition signed_decrypt (authorization : string) (key : list Z) (id : N)
           (message nonce : string) : Context DecryptContentRequest :=
  decrypt authorization id message
          (sign key (utils.GenerateDecryptMessage id nonce) 0) nonce.

End Toy.

(* ================================================================== *)
(** * Requests that differ in one part *)
(* ================================================================== *)

(** The request [c] with its [Authorization] header replaced. *)
Definition with_Authorization {R} (c : Context R) (authorization : string)
  : Context R :=
  {| JSON := JSON c;
     GetHeader := fun k => if String.eqb k "Authorization" then authorization
                           else GetHeader c k;
     Query := Query c;
     Param := Param c |}.

(** The request [c] with another JSON body. *)
Definition with_JSON {R} (c : Context R) (body : option R) : Context R :=
  {| JSON := body; GetHeader := GetHeader c; Query := Query c;
     Param := Param c |}.

(** The decrypt request [r] with its [message] field replaced. *)
Definition with_Message (r : DecryptContentRequest) (message : string)
  : DecryptContentRequest :=
  {| Decrypt_ContentID := Decrypt_ContentID r;
     Decrypt_Signature := Decrypt_Signature r;
     Decrypt_Message := message;
     Decrypt_Nonce := Decrypt_Nonce r |}.

(** The nonce [GenerateNonce] makes of the next 32 random bytes. *)
Definition next_nonce (random : list Z) : string :=
  hex.EncodeToString (firstn 32 random).

(* ================================================================== *)
(** * The stores the handlers keep *)
(* ================================================================== *)


(** What the schema promises of [users] ([primaryKey], [uniqueIndex] on
    the address, AUTOINCREMENT) and what [GenerateNonce] makes of every
    nonce it stores. *)
Record users_ok (us : list User) (seq : N) : Prop := {
  user_ids_distinct : NoDup (map User_ID us);
  user_addresses_distinct : NoDup (map User_Address us);
  user_ids_issued : Forall (fun u => (User_ID u <= seq)%N) us;
  user_nonces_64 : Forall (fun u => len (User_Nonce u) = 64%nat) us
}.

Record contents_ok (cs : list EncryptedContent) (seq : N) : Prop := {
  content_ids_distinct : NoDup (map Content_ID cs);
  content_ids_issued : Forall (fun c => (Content_ID c <= seq)%N) cs;
  content_nonces_64 : Forall (fun c => len (Content_Nonce c) = 64%nat) cs
}.

Definition store_ok (w : World) : Prop :=
  users_ok (users w) (users_seq w)
  /\ contents_ok (contents w) (contents_seq w).

(** The freshly migrated database, with whatever the random source and
    the clock hold. *)
Definition fresh_world (random : list Z) (clock : Z) : World :=
  {| users := []; contents := []; users_seq := 0; contents_seq := 0;
     entropy := random; now := clock |}.

(** Between two requests the random source and the clock move on. *)
Definition with_environment (w : World) (random : list Z) (clock : Z) : World :=
  {| users := users w; contents := contents w; users_seq := users_seq w;
     contents_seq := contents_seq w; entropy := random; now := clock |}.

(** The states the server of [main] can be in: it starts on the fresh
    database and serves one request after the other on its seven
    routes. *)
Inductive reachable {E : External} : World -> Prop :=
| reach_fresh random clock :
    reachable (fresh_world random clock)
| reach_environment w random clock :
    reachable w -> reachable (with_environment w random clock)
| reach_login c w :
    reachable w -> reachable (snd (serve (handlers.LoginHandler c) w))
| reach_register c w :
    reachable w ->
    reachable (snd (serve (handlers.RegisterPublicKeyHandler c) w))
| reach_nonce c w :
    reachable w -> reachable (snd (serve (handlers.GetNonceHandler c) w))
| reach_create c w :
    reachable w -> reachable (snd (serve (handlers.CreateContentHandler c) w))
| reach_list c w :
    reachable w -> reachable (snd (serve (handlers.ListContentHandler c) w))
| reach_decrypt c w :
    reachable w -> reachable (snd (serve (handlers.DecryptContentHandler c) w))
| reach_detail c w :
    reachable w ->
    reachable (snd (serve (handlers.GetContentDetailHandler c) w)).

(** [ORDER BY created_at DESC] as a property of the rows returned. *)
Definition newest_first (a b : EncryptedContent) : Prop :=
  Content_CreatedAt b <= Content_CreatedAt a.

(** What [ListContentHandler] writes for the rows [l]. *)
Definition listing (l : list EncryptedContent) : json :=
  JObj [("contents",
         JArr (map (fun content =>
                      ContentResponse (Content_ID content)
                                      (Content_Title content)
                                      (Content_CreatedAt content)) l));
        ("success", JBool true)].

(** What [DecryptContentHandler] releases of the record [content]. *)
Definition envelope (content : EncryptedContent) : json :=
  JObj [("content",
         ContentDetailResponse (Content_ID content) (Content_Title content)
                               "[ENCRYPTED - DECRYPT ON CLIENT]"
                               (Content_CreatedAt content));
        ("encrypted_data", JStr (Content_EncryptedData content));
        ("encrypted_key", JStr (Content_EncryptedKey content));
        ("iv", JStr (Content_IV content));
        ("success", JBool true)].

(** What [GetContentDetailHandler] writes for the record [content]. *)
Definition detail (content : EncryptedContent) : json :=
  JObj [("content",
         JObj [("created_at", JTime (Content_CreatedAt content));
               ("id", JNum (Content_ID content));
               ("nonce", JStr (Content_Nonce content));
               ("title", JStr (Content_Title content))]);
        ("success", JBool true)].

(* ================================================================== *)
(** * Facts about Go strings and byte slices *)
(* ================================================================== *)

Section GoFacts.

Lemma get_in_range (s : string) (i : nat) :
  (i < String.length s)%nat -> exists c, String.get i s = Some c.
Proof.
  revert i; induction s as [|a s IH]; intros i Hi; simpl in *.
  - lia.
  - destruct i as [|i]; [now exists a|].
    apply IH; lia.
Qed.

Lemma index_in_range (s : string) (i : nat) :
  (i < len s)%nat -> exists c, index s i = Ret c.
Proof.
  intros Hi. unfold index.
  destruct (get_in_range s i Hi) as [c ->]. now exists c.
Qed.

Lemma slice_in_range (s : string) (lo hi : nat) :
  (lo <= hi)%nat -> (hi <= len s)%nat ->
  slice s lo hi = Ret (String.substring lo (hi - lo) s).
Proof.
  intros H1 H2. unfold slice.
  apply Nat.leb_le in H1, H2. now rewrite H1, H2.
Qed.

Lemma substring_prefix (a rest : string) :
  String.substring 0 (String.length a) (a ++ rest) = a.
Proof.
  induction a as [|c a IH]; simpl.
  - now destruct rest.
  - now rewrite IH.
Qed.

Lemma length_append (a b : string) :
  String.length (a ++ b) = (String.length a + String.length b)%nat.
Proof. induction a; simpl; auto. Qed.

(** [s == ""] is false for a string that is not empty. *)
Lemma nonempty_len (s : string) :
  s <> EmptyString -> (len s =? 0)%nat = false.
Proof. destruct s; [congruence|reflexivity]. Qed.

Lemma set_nth_in_range (b : list Z) (i : nat) (x : Z) :
  (i < List.length b)%nat ->
  set_nth b i x = Some (firstn i b ++ x :: skipn (S i) b)%list.
Proof.
  revert i; induction b as [|h t IH]; intros i Hi; simpl in *.
  - lia.
  - destruct i as [|i]; [reflexivity|].
    rewrite IH by lia. reflexivity.
Qed.

Lemma bset_last (b : list Z) (n : nat) (x : Z) :
  List.length b = S n -> bset b n x = Ret (firstn n b ++ [x])%list.
Proof.
  intros Hl. unfold bset. rewrite set_nth_in_range by lia.
  rewrite skipn_all2 by lia. reflexivity.
Qed.

Lemma bindex_in_range (b : list Z) (i : nat) :
  (i < List.length b)%nat -> bindex b i = Ret (nth i b 0).
Proof.
  intros Hi. unfold bindex.
  now rewrite (nth_error_nth' b 0 Hi).
Qed.

Lemma copy_same_length (n : nat) (src : list Z) :
  List.length src = n -> copy (make n) src = src.
Proof.
  intros Hl. unfold copy, make.
  rewrite repeat_length, Hl, Nat.min_id.
  rewrite firstn_all2 by lia.
  rewrite skipn_all2 by (rewrite repeat_length; lia).
  apply app_nil_r.
Qed.

Lemma split_last (b : list Z) (n : nat) :
  List.length b = S n -> b = (firstn n b ++ [nth n b 0])%list.
Proof.
  intros Hl.
  rewrite <- (firstn_skipn n b) at 1. f_equal.
  assert (Hs : List.length (skipn n b) = 1%nat) by (rewrite length_skipn; lia).
  destruct (skipn n b) as [|x [|y r]] eqn:Hk; simpl in Hs; try lia.
  f_equal.
  rewrite <- (firstn_skipn n b) at 1.
  rewrite app_nth2 by (rewrite length_firstn; lia).
  rewrite length_firstn, Nat.min_l by lia.
  rewrite Nat.sub_diag, Hk. reflexivity.
Qed.

End GoFacts.

(* ================================================================== *)
(** * The signature verifier *)
(* ================================================================== *)

Section VerifierFacts.
Context {E : External}.

Lemma stripQuotes_returns (s : string) : exists s', utils.stripQuotes s = Ret s'.
Proof.
  unfold utils.stripQuotes.
  destruct (2 <=? len s)%nat eqn:Hlen; [|eauto].
  apply Nat.leb_le in Hlen.
  destruct (index_in_range s 0) as [c0 ->]; [lia|]. cbn [Go.bind].
  destruct (Ascii.eqb c0 utils.quote); [|eauto].
  destruct (index_in_range s (len s - 1)) as [cl ->]; [lia|]. cbn [Go.bind].
  destruct (Ascii.eqb cl utils.quote); [|eauto].
  rewrite slice_in_range by lia. eauto.
Qed.

Lemma cleanMessage_returns (message : string) :
  exists cleaned, utils.cleanMessage message = Ret cleaned.
Proof.
  unfold utils.cleanMessage.
  destruct (stripQuotes_returns (strings_TrimSpace message)) as [s' ->].
  cbn [Go.bind]. eauto.
Qed.

(** On the 65 bytes that reach it, the parity block never panics: it
    keeps the first 64 bytes and stores [adjustV] of the last one. *)
Lemma adjustSignature_65 (sigBytes : list Z) :
  List.length sigBytes = 65%nat ->
  utils.adjustSignature sigBytes
  = Ret (firstn 64 sigBytes ++ [utils.adjustV (nth 64 sigBytes 0)])%list.
Proof.
  intros Hl. unfold utils.adjustSignature, utils.adjustV.
  rewrite copy_same_length by exact Hl.
  rewrite bindex_in_range by lia. cbn [Go.bind].
  set (v := nth 64 sigBytes 0).
  repeat match goal with
         | |- context [if ?b then _ else _] => destruct b
         end;
    try (apply bset_last; exact Hl).
  f_equal. apply split_last. exact Hl.
Qed.

Lemma Verify_returns (message signature expectedAddress : string) :
  exists b, utils.VerifyEthereumSignature message signature expectedAddress = Ret b.
Proof.
  unfold utils.VerifyEthereumSignature.
  destruct (cleanMessage_returns message) as [cleaned ->]. cbn [Go.bind].
  destruct (hexutil.Decode _) as [sigBytes|]; [|eauto].
  destruct (List.length sigBytes =? 65)%nat eqn:Hl; cbn [negb]; [|eauto].
  apply Nat.eqb_eq in Hl.
  rewrite adjustSignature_65 by exact Hl. cbn [Go.bind].
  destruct (crypto_SigToPub _ _); eauto.
Qed.

End VerifierFacts.

Section VerifierClaims.
Context {E : External}.

(** C8.  [VerifyEthereumSignature] always returns a boolean -- no index
    or slice in it can go out of range -- and the boolean is [false]
    whenever the signature does not hex-decode, decodes to a number of
    bytes other than 65, or [crypto.SigToPub] fails on the hash and the
    adjusted signature.  (Deriving the address has no failure of its own
    in the code.) *)
Theorem VerifyEthereumSignature_total_fails_closed
        (message signature expectedAddress : string) :
  (exists b,
      utils.VerifyEthereumSignature message signature expectedAddress = Ret b)
  /\ (hexutil.Decode (utils.ensure0x signature) = None ->
      utils.VerifyEthereumSignature message signature expectedAddress = Ret false)
  /\ (forall sigBytes,
         hexutil.Decode (utils.ensure0x signature) = Some sigBytes ->
         List.length sigBytes <> 65%nat ->
         utils.VerifyEthereumSignature message signature expectedAddress
         = Ret false)
  /\ (forall sigBytes cleaned,
         hexutil.Decode (utils.ensure0x signature) = Some sigBytes ->
         utils.cleanMessage message = Ret cleaned ->
         crypto_SigToPub
           (utils.messageHash cleaned)
           (firstn 64 sigBytes ++ [utils.adjustV (nth 64 sigBytes 0)])%list
         = None ->
         utils.VerifyEthereumSignature message signature expectedAddress
         = Ret false).
Proof.
  split; [apply Verify_returns|].
  unfold utils.VerifyEthereumSignature.
  destruct (cleanMessage_returns message) as [cleaned Hc].
  rewrite Hc. cbn [Go.bind].
  repeat split.
  - intros ->. reflexivity.
  - intros sigBytes -> Hl.
    apply Nat.eqb_neq in Hl. now rewrite Hl.
  - intros sigBytes cleaned' -> [= <-] Hrec.
    destruct (List.length sigBytes =? 65)%nat eqn:Hl; cbn [negb]; [|reflexivity].
    apply Nat.eqb_eq in Hl.
    rewrite adjustSignature_65 by exact Hl. cbn [Go.bind].
    now rewrite Hrec.
Qed.

(** C7, as the code has it.  For 65 signature bytes whose last byte is
    [v], the parity block keeps the first 64 bytes and stores: 0 and 1
    for the legacy 27 and 28; [v] itself for 0 and 1; [v - 37] for
    [v >= 37] (chain id 1 is assumed), which is 0 or 1 exactly for 37 and
    38; [v - 27], a value from 2 to 7, for 29..34; and 0 for 2..26.
    Hence two signatures with the same first 64 bytes and parity bytes 27
    and 0 (or 28 and 1) get the same answer for every message and
    address. *)
Theorem parity_byte_normalization :
  (forall sigBytes : list Z,
      List.length sigBytes = 65%nat ->
      0 <= nth 64 sigBytes 0 < 256 ->
      let v := nth 64 sigBytes 0 in
      exists v',
        utils.adjustSignature sigBytes = Ret (firstn 64 sigBytes ++ [v'])%list
        /\ (v = 27 -> v' = 0) /\ (v = 28 -> v' = 1)
        /\ (v = 0 \/ v = 1 -> v' = v)
        /\ (37 <= v -> v' = v - 37)
        /\ (29 <= v <= 34 -> v' = v - 27)
        /\ (2 <= v <= 26 -> v' = 0))
  /\ (forall (message legacy canonical expectedAddress : string)
             (rs : list Z) (p : Z),
         List.length rs = 64%nat ->
         p = 0 \/ p = 1 ->
         hexutil.Decode (utils.ensure0x legacy) = Some (rs ++ [27 + p])%list ->
         hexutil.Decode (utils.ensure0x canonical) = Some (rs ++ [p])%list ->
         utils.VerifyEthereumSignature message legacy expectedAddress
         = utils.VerifyEthereumSignature message canonical expectedAddress).
Proof.
  split.
  - intros sigBytes Hl Hv v.
    exists (utils.adjustV v). split; [now apply adjustSignature_65|].
    unfold utils.adjustV, wrap8.
    repeat split; intros Hc.
    + subst v. rewrite Hc. reflexivity.
    + subst v. rewrite Hc. reflexivity.
    + destruct Hc as [Hc|Hc]; rewrite Hc; reflexivity.
    + replace ((v =? 27) || (v =? 28)) with false by lia.
      replace ((v =? 0) || (v =? 1)) with false by lia.
      replace (v >=? 35) with true by lia.
      rewrite Z.mod_small; lia.
    + replace ((v =? 27) || (v =? 28)) with false by lia.
      replace ((v =? 0) || (v =? 1)) with false by lia.
      replace (v >=? 35) with false by lia.
      replace (v >=? 27) with true by lia.
      rewrite Z.mod_small; lia.
    + replace ((v =? 27) || (v =? 28)) with false by lia.
      replace ((v =? 0) || (v =? 1)) with false by lia.
      replace (v >=? 35) with false by lia.
      replace (v >=? 27) with false by lia.
      reflexivity.
  - intros message legacy canonical expectedAddress rs p Hl Hp Hleg Hcan.
    unfold utils.VerifyEthereumSignature.
    destruct (cleanMessage_returns message) as [cleaned ->]. cbn [Go.bind].
    rewrite Hleg, Hcan.
    assert (H65 : forall x, List.length (rs ++ [x]) = 65%nat)
      by (intros x; rewrite length_app, Hl; reflexivity).
    rewrite !H65. cbn [Nat.eqb negb].
    rewrite !adjustSignature_65 by apply H65. cbn [Go.bind].
    assert (Hf : forall x, firstn 64 (rs ++ [x]) = rs).
    { intros x. rewrite firstn_app, Hl, Nat.sub_diag, firstn_O, app_nil_r.
      apply firstn_all2. lia. }
    assert (Hn : forall x, nth 64 (rs ++ [x]) 0 = x).
    { intros x. rewrite app_nth2, Hl, Nat.sub_diag by lia. reflexivity. }
    rewrite !Hf, !Hn.
    replace (utils.adjustV (27 + p)) with (utils.adjustV p)
      by (destruct Hp as [-> | ->]; reflexivity).
    reflexivity.
Qed.

End VerifierClaims.

(* ================================================================== *)
(** * The tables *)
(* ================================================================== *)

Section TableFacts.
Context {A : Type}.
Implicit Types (p same : A -> bool) (l : list A).

Lemma find_none_existsb p l : find p l = None -> existsb p l = false.
Proof.
  induction l as [|x l IH]; simpl; [reflexivity|].
  destruct (p x); [discriminate|]. exact IH.
Qed.

Lemma find_some_existsb p l x : find p l = Some x -> existsb p l = true.
Proof.
  induction l as [|y l IH]; simpl; [discriminate|].
  destruct (p y); [reflexivity|]. exact IH.
Qed.

Lemma find_app_new p l x :
  find p l = None -> p x = true -> find p (l ++ [x]) = Some x.
Proof.
  induction l as [|y l IH]; simpl; intros Hn Hx.
  - now rewrite Hx.
  - destruct (p y); [discriminate|]. now apply IH.
Qed.

(** Overwriting the rows that [same] selects with [row]: when the first
    row satisfying [p] is selected and [row] satisfies [p] too, [row] is
    the first row satisfying [p] afterwards. *)
Lemma find_overwrite p same l x row :
  find p l = Some x -> same x = true -> p row = true ->
  find p (map (fun r => if same r then row else r) l) = Some row.
Proof.
  induction l as [|y l IH]; simpl; intros Hf Hs Hr; [discriminate|].
  destruct (p y) eqn:Hy.
  - injection Hf as ->. now rewrite Hs, Hr.
  - destruct (same y); [now rewrite Hr|].
    rewrite Hy. now apply IH.
Qed.

Lemma find_some_selected p same l x :
  find p l = Some x -> same x = true -> existsb same l = true.
Proof.
  intros Hf Hs. apply find_some in Hf as [Hin _].
  apply existsb_exists. now exists x.
Qed.

Lemma find_some_true p l x : find p l = Some x -> p x = true.
Proof. intros Hf. now apply find_some in Hf. Qed.

End TableFacts.

(* ================================================================== *)
(** * Running a handler *)
(* ================================================================== *)

Ltac unfold_monad :=
  unfold serve, hbind, lift, ret, respond,
    database.First_User, database.First_Content, database.Find_Contents,
    database.Create_User, database.Create_Content,
    database.Save_User, database.Save_Content,
    utils.GenerateNonce, utils.rand_Read, hbind, ret in *.

(** Projections of the state and of rows, after a step has been taken. *)
Ltac world_simpl :=
  cbn [users contents users_seq contents_seq entropy now
       with_users with_entropy with_contents negb
       User_ID User_Address User_PublicKey User_Nonce
       User_CreatedAt User_UpdatedAt
       User_with_Nonce User_with_PublicKey User_with_UpdatedAt
       Content_ID Content_UserAddress Content_Title Content_EncryptedData
       Content_EncryptedKey Content_IV Content_Nonce
       Content_CreatedAt Content_UpdatedAt
       Content_with_Nonce Content_with_UpdatedAt] in *.

(** A branch that answered with an error status cannot be a 200. *)
Ltac not_ok :=
  intros; subst;
  match goal with
  | H : (_, _) = (_, _) |- _ => injection H as <- <-
  end;
  match goal with
  | H : Status _ = StatusOK |- _ => discriminate H
  end.

Lemma userAddressOf_returns (authHeader : string) :
  exists a, handlers.userAddressOf authHeader = Ret a.
Proof.
  unfold handlers.userAddressOf.
  destruct (0 <? len authHeader)%nat; [|eauto].
  destruct (42 <? len authHeader)%nat eqn:Hl; [|eauto].
  apply Nat.ltb_lt in Hl.
  rewrite slice_in_range by lia. eauto.
Qed.

(** A credential [address:nonce] of a 42-byte address is cut back to the
    address. *)
Lemma userAddressOf_credential (address nonce : string) :
  len address = 42%nat ->
  handlers.userAddressOf (address ++ ":" ++ nonce) = Ret address.
Proof.
  intros Hl. unfold handlers.userAddressOf, len in *.
  rewrite length_append, Hl. cbn [String.length append].
  replace (0 <? 42 + S (String.length nonce))%nat with true
    by (symmetry; apply Nat.ltb_lt; lia).
  replace (42 <? 42 + S (String.length nonce))%nat with true
    by (symmetry; apply Nat.ltb_lt; lia).
  rewrite slice_in_range by (unfold len; rewrite ?length_append, ?Hl; lia).
  rewrite Nat.sub_0_r, <- Hl. now rewrite substring_prefix.
Qed.

Lemma credential_not_empty (address nonce : string) :
  (len (address ++ ":" ++ nonce) =? 0)%nat = false.
Proof.
  apply Nat.eqb_neq. unfold len. rewrite length_append. simpl. lia.
Qed.

Section LoginFacts.
Context {E : External}.
Import database.

Implicit Types (c : Context LoginRequest) (req : LoginRequest) (w : World).

Let verified req : go bool :=
  utils.VerifyEthereumSignature
    (Login_Message req) (Login_Signature req) (Login_Address req).

Let ok req (nonce : string) : Response :=
  {| Status := StatusOK;
     Body := JObj [("success", JBool true);
                   ("token", JStr (Login_Address req ++ ":" ++ nonce));
                   ("address", JStr (Login_Address req))] |}.

Lemma Login_bad_signature c w req :
  ShouldBindJSON c LoginRequest_binding = Some req ->
  verified req = Ret false ->
  serve (handlers.LoginHandler c) w
  = ({| Status := StatusUnauthorized;
        Body := ErrorResponse "Invalid signature" |}, w).
Proof.
  intros Hb Hv. unfold handlers.LoginHandler. rewrite Hb.
  unfold_monad. unfold verified in Hv. now rewrite Hv.
Qed.

(** A verified login of a known identity: the next nonce is drawn, stored
    for the identity, and returned in the token. *)
Lemma Login_known c w req u :
  ShouldBindJSON c LoginRequest_binding = Some req ->
  verified req = Ret true ->
  find (Where_address (Login_Address req)) (users w) = Some u ->
  (32 <= List.length (entropy w))%nat ->
  exists w' u',
    serve (handlers.LoginHandler c) w = (ok req (next_nonce (entropy w)), w')
    /\ find (Where_address (Login_Address req)) (users w') = Some u'
    /\ User_Nonce u' = next_nonce (entropy w)
    /\ entropy w' = skipn 32 (entropy w)
    /\ contents w' = contents w.
Proof.
  intros Hb Hv Hf He. unfold verified in Hv.
  unfold handlers.LoginHandler. rewrite Hb.
  unfold_monad. rewrite Hv. cbn [negb]. rewrite Hf.
  apply Nat.leb_le in He. rewrite He. world_simpl.
  rewrite (find_some_selected _ (fun r => (User_ID r =? User_ID u)%N) _ _
                              Hf (N.eqb_refl _)).
  unfold LoginResponse, ok. rewrite credential_not_empty.
  eexists _, _. split; [reflexivity|].
  cbn [users with_users entropy with_entropy contents].
  split.
  { apply find_overwrite with (x := u); auto using N.eqb_refl.
    apply (find_some_true _ _ _ Hf). }
  repeat split; reflexivity.
Qed.

(** A verified login of an unknown identity: the identity is created with
    a first nonce, the nonce is rotated at once, and the call logs in. *)
Lemma Login_unknown c w req :
  ShouldBindJSON c LoginRequest_binding = Some req ->
  verified req = Ret true ->
  find (Where_address (Login_Address req)) (users w) = None ->
  (64 <= List.length (entropy w))%nat ->
  exists w' u',
    serve (handlers.LoginHandler c) w
    = (ok req (next_nonce (skipn 32 (entropy w))), w')
    /\ find (Where_address (Login_Address req)) (users w') = Some u'
    /\ User_Nonce u' = next_nonce (skipn 32 (entropy w))
    /\ entropy w' = skipn 32 (skipn 32 (entropy w))
    /\ contents w' = contents w.
Proof.
  intros Hb Hv Hf He. unfold verified in Hv.
  unfold handlers.LoginHandler. rewrite Hb.
  unfold_monad. rewrite Hv. cbn [negb]. rewrite Hf.
  replace (32 <=? List.length (entropy w))%nat with true
    by (symmetry; apply Nat.leb_le; lia).
  world_simpl. rewrite (find_none_existsb _ _ Hf). world_simpl.
  replace (32 <=? List.length (skipn 32 (entropy w)))%nat with true
    by (symmetry; apply Nat.leb_le; rewrite length_skipn; lia).
  world_simpl.
  rewrite existsb_app. cbn [existsb User_ID]. rewrite N.eqb_refl, !orb_true_r.
  unfold LoginResponse, ok. rewrite credential_not_empty.
  eexists _, _. split; [reflexivity|].
  cbn [users with_users entropy with_entropy contents].
  split.
  { match goal with
    | |- find _ (map _ (_ ++ [?row])) = _ =>
        apply find_overwrite with (x := row)
    end.
    - apply find_app_new; [exact Hf|].
      unfold Where_address. cbn [User_Address]. apply String.eqb_refl.
    - apply N.eqb_refl.
    - unfold Where_address. cbn [User_Address User_with_UpdatedAt].
      apply String.eqb_refl. }
  repeat split; reflexivity.
Qed.

(** Only these two runs answer 200. *)
Lemma Login_ok_inv c w resp w' :
  serve (handlers.LoginHandler c) w = (resp, w') ->
  Status resp = StatusOK ->
  exists req,
    ShouldBindJSON c LoginRequest_binding = Some req
    /\ verified req = Ret true
    /\ ((exists u, find (Where_address (Login_Address req)) (users w) = Some u
                   /\ (32 <= List.length (entropy w))%nat)
        \/ (find (Where_address (Login_Address req)) (users w) = None
            /\ (64 <= List.length (entropy w))%nat)).
Proof.
  unfold handlers.LoginHandler.
  destruct (ShouldBindJSON c LoginRequest_binding) as [req|] eqn:Hb;
    [|unfold_monad; not_ok].
  destruct (Verify_returns (Login_Message req) (Login_Signature req)
                           (Login_Address req)) as [valid Hv].
  unfold_monad. rewrite Hv.
  destruct valid; cbn [negb]; [|not_ok].
  intros Hrun Hok. exists req. split; [reflexivity|]. split; [exact Hv|].
  destruct (find _ (users w)) as [u|] eqn:Hf.
  - left. exists u. split; [reflexivity|].
    destruct (32 <=? List.length (entropy w))%nat eqn:He;
      [now apply Nat.leb_le|revert Hrun Hok; not_ok].
  - right. split; [reflexivity|].
    destruct (32 <=? List.length (entropy w))%nat eqn:He;
      [|revert Hrun Hok; not_ok].
    world_simpl. rewrite (find_none_existsb _ _ Hf) in Hrun. world_simpl.
    destruct (32 <=? List.length (skipn 32 (entropy w)))%nat eqn:He2;
      [|revert Hrun Hok; not_ok].
    apply Nat.leb_le in He2. rewrite length_skipn in He2. lia.
Qed.

End LoginFacts.

Section LoginClaims.
Context {E : External}.
Import database.

(** A login that was answered 200 is answered 200 again when the very
    same request is sent once more (as long as the random source
    delivers): nothing in the request is compared with the stored
    nonce. *)
Lemma Login_replay_accepted (c : Context LoginRequest) (w w' : World)
      (resp : Response) :
  serve (handlers.LoginHandler c) w = (resp, w') ->
  Status resp = StatusOK ->
  (32 <= List.length (entropy w'))%nat ->
  exists resp' w'',
    serve (handlers.LoginHandler c) w' = (resp', w'')
    /\ Status resp' = StatusOK.
Proof.
  intros Hrun Hok He.
  destruct (Login_ok_inv c w resp w' Hrun Hok) as (req & Hb & Hv & Hcase).
  assert (Hknown : exists u',
             find (Where_address (Login_Address req)) (users w') = Some u').
  { destruct Hcase as [(u & Hf & Hl) | (Hf & Hl)].
    - destruct (Login_known c w req u Hb Hv Hf Hl) as (w1 & u' & Hr & Hf' & _).
      rewrite Hr in Hrun. injection Hrun as _ <-. eauto.
    - destruct (Login_unknown c w req Hb Hv Hf Hl) as (w1 & u' & Hr & Hf' & _).
      rewrite Hr in Hrun. injection Hrun as _ <-. eauto. }
  destruct Hknown as [u' Hf'].
  destruct (Login_known c w' req u' Hb Hv Hf' He) as (w'' & _ & Hr & _).
  eexists _, w''. split; [exact Hr|reflexivity].
Qed.

(** C1, as the code has it.  A login is answered 200 only if the
    signature verifies for the submitted message and address; and a
    verified login of an unknown identity is not rejected: the identity
    is created with a first nonce, that nonce is rotated at once, and the
    same call returns the credential. *)
Theorem login_needs_verified_signature_and_provisions_unknown :
  (forall (c : Context LoginRequest) (w w' : World) (resp : Response),
      serve (handlers.LoginHandler c) w = (resp, w') ->
      Status resp = StatusOK ->
      exists req,
        ShouldBindJSON c LoginRequest_binding = Some req
        /\ utils.VerifyEthereumSignature
             (Login_Message req) (Login_Signature req) (Login_Address req)
           = Ret true)
  /\ (forall (c : Context LoginRequest) (w : World) (req : LoginRequest),
         ShouldBindJSON c LoginRequest_binding = Some req ->
         utils.VerifyEthereumSignature
           (Login_Message req) (Login_Signature req) (Login_Address req)
         = Ret true ->
         find (Where_address (Login_Address req)) (users w) = None ->
         (64 <= List.length (entropy w))%nat ->
         exists w' u',
           serve (handlers.LoginHandler c) w
           = ({| Status := StatusOK;
                 Body := JObj [("success", JBool true);
                               ("token",
                                JStr (Login_Address req ++ ":"
                                      ++ next_nonce (skipn 32 (entropy w))));
                               ("address", JStr (Login_Address req))] |}, w')
           /\ find (Where_address (Login_Address req)) (users w') = Some u'
           /\ User_Nonce u' = next_nonce (skipn 32 (entropy w))).
Proof.
  split.
  - intros c w w' resp Hrun Hok.
    destruct (Login_ok_inv c w resp w' Hrun Hok) as (req & Hb & Hv & _).
    eauto.
  - intros c w req Hb Hv Hf He.
    destruct (Login_unknown c w req Hb Hv Hf He) as (w' & u' & Hr & Hf' & Hn & _).
    eauto.
Qed.

(** C10.  Whenever a login is answered 200, the token in the answer is
    the request's address, a colon, and the nonce just drawn -- which is
    the nonce now stored for that address.  The credential is thus a
    function of the address and the current stored nonce alone. *)
Theorem login_token_is_address_colon_nonce
        (c : Context LoginRequest) (w w' : World) (resp : Response) :
  serve (handlers.LoginHandler c) w = (resp, w') ->
  Status resp = StatusOK ->
  exists req newNonce u',
    ShouldBindJSON c LoginRequest_binding = Some req
    /\ Body resp = JObj [("success", JBool true);
                         ("token", JStr (Login_Address req ++ ":" ++ newNonce));
                         ("address", JStr (Login_Address req))]
    /\ find (Where_address (Login_Address req)) (users w') = Some u'
    /\ User_Nonce u' = newNonce
    /\ (newNonce = next_nonce (entropy w)
        \/ newNonce = next_nonce (skipn 32 (entropy w))).
Proof.
  intros Hrun Hok.
  destruct (Login_ok_inv c w resp w' Hrun Hok) as (req & Hb & Hv & Hcase).
  exists req.
  destruct Hcase as [(u & Hf & Hl) | (Hf & Hl)].
  - destruct (Login_known c w req u Hb Hv Hf Hl) as (w1 & u' & Hr & Hf' & Hn & _).
    rewrite Hr in Hrun. injection Hrun as <- <-.
    exists (next_nonce (entropy w)), u'. cbn [Body]. repeat split; auto.
  - destruct (Login_unknown c w req Hb Hv Hf Hl) as (w1 & u' & Hr & Hf' & Hn & _).
    rewrite Hr in Hrun. injection Hrun as <- <-.
    exists (next_nonce (skipn 32 (entropy w))), u'. cbn [Body].
    repeat split; auto.
Qed.

End LoginClaims.

Section NonceClaims.
Context {E : External}.
Import database.

(** C4, as the code has it.  For a known identity [GetNonceHandler]
    returns the stored nonce and changes nothing, so asking again gives
    the same nonce.  For an unknown identity it returns a nonce made of
    the next 32 random bytes and stores nothing: only the random source
    has advanced, the identity is still unknown afterwards. *)
Theorem GetNonce_reads_or_draws_without_storing (c : Context unit) (w : World) :
  Query c "address" <> EmptyString ->
  (forall u,
      find (Where_address (Query c "address")) (users w) = Some u ->
      serve (handlers.GetNonceHandler c) w
      = ({| Status := StatusOK;
            Body := JObj [("nonce", JStr (User_Nonce u))] |}, w))
  /\ (find (Where_address (Query c "address")) (users w) = None ->
      (32 <= List.length (entropy w))%nat ->
      serve (handlers.GetNonceHandler c) w
      = ({| Status := StatusOK;
            Body := JObj [("nonce", JStr (next_nonce (entropy w)))] |},
         with_entropy w (skipn 32 (entropy w)))
      /\ find (Where_address (Query c "address"))
              (users (with_entropy w (skipn 32 (entropy w)))) = None).
Proof.
  intros Ha. apply nonempty_len in Ha.
  unfold handlers.GetNonceHandler. rewrite Ha.
  split.
  - intros u Hf. unfold_monad. now rewrite Hf.
  - intros Hf He. split; [|exact Hf].
    unfold_monad. rewrite Hf.
    apply Nat.leb_le in He. now rewrite He.
Qed.

End NonceClaims.

Section DecryptFacts.
Context {E : External}.
Import database.

Implicit Types (c : Context DecryptContentRequest)
         (req : DecryptContentRequest) (w : World) (a : string).

Let verified req a : go bool :=
  utils.VerifyEthereumSignature
    (utils.GenerateDecryptMessage (Decrypt_ContentID req) (Decrypt_Nonce req))
    (Decrypt_Signature req) a.

Let unauthorized (e : string) : Response :=
  {| Status := StatusUnauthorized; Body := ErrorResponse e |}.

Ltac decrypt_prelude Hb Hh Ha :=
  unfold handlers.DecryptContentHandler;
  rewrite Hb, (nonempty_len _ Hh);
  unfold_monad; rewrite Ha; cbn [negb].

Lemma Decrypt_bad_signature c w req a :
  ShouldBindJSON c DecryptContentRequest_binding = Some req ->
  GetHeader c "Authorization" <> EmptyString ->
  handlers.userAddressOf (GetHeader c "Authorization") = Ret a ->
  verified req a = Ret false ->
  serve (handlers.DecryptContentHandler c) w
  = (unauthorized "Invalid signature", w).
Proof.
  intros Hb Hh Ha Hv. unfold verified in Hv.
  decrypt_prelude Hb Hh Ha. now rewrite Hv.
Qed.

Lemma Decrypt_not_found c w req a :
  ShouldBindJSON c DecryptContentRequest_binding = Some req ->
  GetHeader c "Authorization" <> EmptyString ->
  handlers.userAddressOf (GetHeader c "Authorization") = Ret a ->
  verified req a = Ret true ->
  find (Where_id_user_address (Decrypt_ContentID req) a) (contents w) = None ->
  serve (handlers.DecryptContentHandler c) w
  = ({| Status := StatusNotFound;
        Body := ErrorResponse "Content not found" |}, w).
Proof.
  intros Hb Hh Ha Hv Hf. unfold verified in Hv.
  decrypt_prelude Hb Hh Ha. rewrite Hv. cbn [negb]. now rewrite Hf.
Qed.

Lemma Decrypt_nonce_mismatch c w req a content :
  ShouldBindJSON c DecryptContentRequest_binding = Some req ->
  GetHeader c "Authorization" <> EmptyString ->
  handlers.userAddressOf (GetHeader c "Authorization") = Ret a ->
  verified req a = Ret true ->
  find (Where_id_user_address (Decrypt_ContentID req) a) (contents w)
  = Some content ->
  Content_Nonce content <> Decrypt_Nonce req ->
  serve (handlers.DecryptContentHandler c) w
  = (unauthorized "Invalid nonce", w).
Proof.
  intros Hb Hh Ha Hv Hf Hn. unfold verified in Hv.
  decrypt_prelude Hb Hh Ha. rewrite Hv. cbn [negb]. rewrite Hf.
  apply String.eqb_neq in Hn. now rewrite Hn.
Qed.

(** An authorized decrypt: the envelope is released and the next nonce
    is stored for the record. *)
Lemma Decrypt_authorized c w req a content :
  ShouldBindJSON c DecryptContentRequest_binding = Some req ->
  GetHeader c "Authorization" <> EmptyString ->
  handlers.userAddressOf (GetHeader c "Authorization") = Ret a ->
  verified req a = Ret true ->
  find (Where_id_user_address (Decrypt_ContentID req) a) (contents w)
  = Some content ->
  Content_Nonce content = Decrypt_Nonce req ->
  (32 <= List.length (entropy w))%nat ->
  exists w' content',
    serve (handlers.DecryptContentHandler c) w
    = ({| Status := StatusOK;
          Body :=
            JObj [("content",
                   ContentDetailResponse
                     (Content_ID content) (Content_Title content)
                     "[ENCRYPTED - DECRYPT ON CLIENT]"
                     (Content_CreatedAt content));
                  ("encrypted_data", JStr (Content_EncryptedData content));
                  ("encrypted_key", JStr (Content_EncryptedKey content));
                  ("iv", JStr (Content_IV content));
                  ("success", JBool true)] |}, w')
    /\ find (Where_id_user_address (Decrypt_ContentID req) a) (contents w')
       = Some content'
    /\ Content_Nonce content' = next_nonce (entropy w)
    /\ users w' = users w.
Proof.
  intros Hb Hh Ha Hv Hf Hn He. unfold verified in Hv.
  decrypt_prelude Hb Hh Ha. rewrite Hv. cbn [negb]. rewrite Hf.
  apply String.eqb_eq in Hn. rewrite Hn. cbn [negb].
  apply Nat.leb_le in He. rewrite He. world_simpl.
  rewrite (find_some_selected
             _ (fun r => (Content_ID r =? Content_ID content)%N) _ _
             Hf (N.eqb_refl _)).
  eexists _, _. split; [reflexivity|]. world_simpl.
  split.
  { apply find_overwrite with (x := content); auto using N.eqb_refl.
    apply (find_some_true _ _ _ Hf). }
  split; reflexivity.
Qed.

Lemma Decrypt_ok_inv c w resp w' :
  serve (handlers.DecryptContentHandler c) w = (resp, w') ->
  Status resp = StatusOK ->
  exists req a content,
    ShouldBindJSON c DecryptContentRequest_binding = Some req
    /\ GetHeader c "Authorization" <> EmptyString
    /\ handlers.userAddressOf (GetHeader c "Authorization") = Ret a
    /\ verified req a = Ret true
    /\ find (Where_id_user_address (Decrypt_ContentID req) a) (contents w)
       = Some content
    /\ Content_Nonce content = Decrypt_Nonce req
    /\ (32 <= List.length (entropy w))%nat.
Proof.
  unfold handlers.DecryptContentHandler.
  destruct (ShouldBindJSON c DecryptContentRequest_binding) as [req|] eqn:Hb;
    [|unfold_monad; not_ok].
  destruct (len (GetHeader c "Authorization") =? 0)%nat eqn:Hh;
    [unfold_monad; not_ok|].
  destruct (userAddressOf_returns (GetHeader c "Authorization")) as [a Ha].
  destruct (Verify_returns
              (utils.GenerateDecryptMessage (Decrypt_ContentID req)
                                            (Decrypt_Nonce req))
              (Decrypt_Signature req) a) as [valid Hv].
  unfold_monad. rewrite Ha. cbn [negb]. rewrite Hv.
  destruct valid; cbn [negb]; [|not_ok].
  destruct (find _ (contents w)) as [content|] eqn:Hf; [|not_ok].
  destruct (String.eqb (Content_Nonce content) (Decrypt_Nonce req)) eqn:Hn;
    cbn [negb]; [|not_ok].
  destruct (32 <=? List.length (entropy w))%nat eqn:He; [|not_ok].
  intros _ _. exists req, a, content.
  repeat split; auto.
  - intros Heq. rewrite Heq in Hh. discriminate.
  - now apply String.eqb_eq.
  - now apply Nat.leb_le.
Qed.

(** After an authorized decrypt, the very same request is answered
    401 "Invalid nonce", provided the nonce drawn differs from the one
    the request carries. *)
Lemma Decrypt_replay_rejected c w resp w' :
  serve (handlers.DecryptContentHandler c) w = (resp, w') ->
  Status resp = StatusOK ->
  (forall req, JSON c = Some req -> next_nonce (entropy w) <> Decrypt_Nonce req) ->
  serve (handlers.DecryptContentHandler c) w'
  = (unauthorized "Invalid nonce", w').
Proof.
  intros Hrun Hok Hfresh.
  destruct (Decrypt_ok_inv c w resp w' Hrun Hok)
    as (req & a & content & Hb & Hh & Ha & Hv & Hf & Hn & He).
  destruct (Decrypt_authorized c w req a content Hb Hh Ha Hv Hf Hn He)
    as (w1 & content' & Hr & Hf' & Hn' & _).
  rewrite Hr in Hrun. injection Hrun as _ <-.
  apply (Decrypt_nonce_mismatch c w1 req a content' Hb Hh Ha Hv Hf').
  rewrite Hn'. apply Hfresh.
  unfold ShouldBindJSON in Hb.
  destruct (JSON c) as [r|]; [|discriminate].
  destruct (DecryptContentRequest_binding r); now inversion Hb.
Qed.

End DecryptFacts.

Section ContentClaims.
Context {E : External}.
Import database.

Lemma find_none_of_all_false {A} (p : A -> bool) (l : list A) :
  (forall x, In x l -> p x = false) -> find p l = None.
Proof.
  induction l as [|y l IH]; simpl; intros Hall; [reflexivity|].
  rewrite (Hall y) by now left.
  apply IH. intros x Hx. apply Hall. now right.
Qed.

(** C5, as the code has it.  A decrypt request whose signature does not
    verify and one whose nonce is not the record's are both answered with
    status 401 and leave the state alone, but with different payloads:
    "Invalid signature" for the first, "Invalid nonce" for the second. *)
Theorem decrypt_unauthorized_same_status_distinct_payload
        (c : Context DecryptContentRequest) (w : World)
        (req : DecryptContentRequest) (a : string) :
  ShouldBindJSON c DecryptContentRequest_binding = Some req ->
  GetHeader c "Authorization" <> EmptyString ->
  handlers.userAddressOf (GetHeader c "Authorization") = Ret a ->
  (utils.VerifyEthereumSignature
     (utils.GenerateDecryptMessage (Decrypt_ContentID req) (Decrypt_Nonce req))
     (Decrypt_Signature req) a = Ret false ->
   serve (handlers.DecryptContentHandler c) w
   = ({| Status := StatusUnauthorized;
         Body := ErrorResponse "Invalid signature" |}, w))
  /\ (forall content,
         utils.VerifyEthereumSignature
           (utils.GenerateDecryptMessage (Decrypt_ContentID req)
                                         (Decrypt_Nonce req))
           (Decrypt_Signature req) a = Ret true ->
         find (Where_id_user_address (Decrypt_ContentID req) a) (contents w)
         = Some content ->
         Content_Nonce content <> Decrypt_Nonce req ->
         serve (handlers.DecryptContentHandler c) w
         = ({| Status := StatusUnauthorized;
               Body := ErrorResponse "Invalid nonce" |}, w))
  /\ ErrorResponse "Invalid signature" <> ErrorResponse "Invalid nonce".
Proof.
  intros Hb Hh Ha. repeat split.
  - intros Hv. now apply (Decrypt_bad_signature c w req a).
  - intros content Hv Hf Hn.
    now apply (Decrypt_nonce_mismatch c w req a content).
  - discriminate.
Qed.

(** C6.  A decrypt request with a valid signature for a record that
    exists but belongs to another address, and one for an id that no
    record has, get the same answer, 404 "Content not found", and both
    leave the state as it was. *)
Theorem decrypt_foreign_record_reported_as_missing
        (c1 c2 : Context DecryptContentRequest) (w1 w2 : World)
        (req1 req2 : DecryptContentRequest) (a1 a2 : string)
        (foreign : EncryptedContent) :
  ShouldBindJSON c1 DecryptContentRequest_binding = Some req1 ->
  GetHeader c1 "Authorization" <> EmptyString ->
  handlers.userAddressOf (GetHeader c1 "Authorization") = Ret a1 ->
  utils.VerifyEthereumSignature
    (utils.GenerateDecryptMessage (Decrypt_ContentID req1) (Decrypt_Nonce req1))
    (Decrypt_Signature req1) a1 = Ret true ->
  ShouldBindJSON c2 DecryptContentRequest_binding = Some req2 ->
  GetHeader c2 "Authorization" <> EmptyString ->
  handlers.userAddressOf (GetHeader c2 "Authorization") = Ret a2 ->
  utils.VerifyEthereumSignature
    (utils.GenerateDecryptMessage (Decrypt_ContentID req2) (Decrypt_Nonce req2))
    (Decrypt_Signature req2) a2 = Ret true ->
  In foreign (contents w1) ->
  Content_ID foreign = Decrypt_ContentID req1 ->
  (forall row, In row (contents w1) ->
               Content_ID row = Decrypt_ContentID req1 ->
               Content_UserAddress row <> a1) ->
  (forall row, In row (contents w2) ->
               Content_ID row <> Decrypt_ContentID req2) ->
  serve (handlers.DecryptContentHandler c1) w1
  = ({| Status := StatusNotFound;
        Body := ErrorResponse "Content not found" |}, w1)
  /\ serve (handlers.DecryptContentHandler c2) w2
     = ({| Status := StatusNotFound;
           Body := ErrorResponse "Content not found" |}, w2).
Proof.
  intros Hb1 Hh1 Ha1 Hv1 Hb2 Hh2 Ha2 Hv2 _ _ Hother Hmissing.
  split.
  - apply Decrypt_not_found with (req := req1) (a := a1); auto.
    apply find_none_of_all_false. intros row Hin.
    unfold Where_id_user_address.
    destruct (Content_ID row =? Decrypt_ContentID req1)%N eqn:Hid;
      [|reflexivity].
    apply N.eqb_eq in Hid. cbn [andb].
    apply String.eqb_neq. now apply Hother.
  - apply Decrypt_not_found with (req := req2) (a := a2); auto.
    apply find_none_of_all_false. intros row Hin.
    unfold Where_id_user_address.
    replace (Content_ID row =? Decrypt_ContentID req2)%N with false;
      [reflexivity|].
    symmetry. apply N.eqb_neq. now apply Hmissing.
Qed.

(** C9, as the code has it.  Once the [message] field is not empty (an
    empty or missing one fails the [required] binding and is answered
    400), its content plays no part: two decrypt requests that differ
    only in non-empty [message] fields get the same answer and leave the
    same state. *)
Theorem decrypt_ignores_nonempty_message
        (c : Context DecryptContentRequest) (w : World)
        (req : DecryptContentRequest) (message' : string) :
  JSON c = Some req ->
  Decrypt_Message req <> EmptyString ->
  message' <> EmptyString ->
  serve (handlers.DecryptContentHandler c) w
  = serve (handlers.DecryptContentHandler
             (with_JSON c (Some (with_Message req message')))) w.
Proof.
  intros Hj Hm Hm'.
  unfold handlers.DecryptContentHandler, ShouldBindJSON.
  cbn [JSON with_JSON GetHeader]. rewrite Hj.
  unfold DecryptContentRequest_binding, required.
  cbn [with_Message Decrypt_ContentID Decrypt_Signature Decrypt_Message
       Decrypt_Nonce].
  rewrite (nonempty_len _ Hm), (nonempty_len _ Hm').
  destruct (requiredN (Decrypt_ContentID req)
            && negb (len (Decrypt_Signature req) =? 0)%nat
            && negb false
            && negb (len (Decrypt_Nonce req) =? 0)%nat); reflexivity.
Qed.

(** C3, as the code has it.  The content handlers read the caller's
    address off the first 42 bytes of the [Authorization] header and
    never look at the nonce behind it: for a 42-byte address, a
    credential carrying any nonce -- a stale one as well -- gets the same
    answer and leaves the same state as one carrying any other. *)
Theorem content_handlers_ignore_credential_nonce
        (address nonce1 nonce2 : string) (w : World) :
  len address = 42%nat ->
  (forall c : Context CreateContentRequest,
      serve (handlers.CreateContentHandler
               (with_Authorization c (address ++ ":" ++ nonce1))) w
      = serve (handlers.CreateContentHandler
                 (with_Authorization c (address ++ ":" ++ nonce2))) w)
  /\ (forall c : Context unit,
         serve (handlers.ListContentHandler
                  (with_Authorization c (address ++ ":" ++ nonce1))) w
         = serve (handlers.ListContentHandler
                    (with_Authorization c (address ++ ":" ++ nonce2))) w)
  /\ (forall c : Context DecryptContentRequest,
         serve (handlers.DecryptContentHandler
                  (with_Authorization c (address ++ ":" ++ nonce1))) w
         = serve (handlers.DecryptContentHandler
                    (with_Authorization c (address ++ ":" ++ nonce2))) w)
  /\ (forall c : Context unit,
         serve (handlers.GetContentDetailHandler
                  (with_Authorization c (address ++ ":" ++ nonce1))) w
         = serve (handlers.GetContentDetailHandler
                    (with_Authorization c (address ++ ":" ++ nonce2))) w).
Proof.
  intros Hl.
  assert (Hhdr : forall R (c : Context R) tok,
             GetHeader (with_Authorization c tok) "Authorization" = tok)
    by reflexivity.
  repeat split; intros c.
  - unfold handlers.CreateContentHandler, ShouldBindJSON.
    rewrite !Hhdr. cbn [JSON with_Authorization].
    rewrite !credential_not_empty, !userAddressOf_credential by exact Hl.
    reflexivity.
  - unfold handlers.ListContentHandler.
    rewrite !Hhdr.
    rewrite !credential_not_empty, !userAddressOf_credential by exact Hl.
    reflexivity.
  - unfold handlers.DecryptContentHandler, ShouldBindJSON.
    rewrite !Hhdr. cbn [JSON with_Authorization].
    rewrite !credential_not_empty, !userAddressOf_credential by exact Hl.
    reflexivity.
  - unfold handlers.GetContentDetailHandler.
    rewrite !Hhdr. cbn [Param with_Authorization].
    rewrite !credential_not_empty, !userAddressOf_credential by exact Hl.
    reflexivity.
Qed.

End ContentClaims.

(* ================================================================== *)
(** * Concrete runs, with the instance [Toy.lib] *)
(* ================================================================== *)

Module Scenario.
Import Toy.
Import database.

Ltac run := vm_compute; reflexivity.

(** Each conjunct by evaluation. *)
Ltac run_each :=
  repeat match goal with |- _ /\ _ => split end; try run.

(** ** Signature verification *)

(** C8 at three signatures: one that is not hex, one of a single byte,
    and one of 65 bytes whose parity byte 41 becomes recovery id 4, which
    [recover] refuses. *)
Lemma VerifyEthereumSignature_total_fails_closed_witness :
  utils.VerifyEthereumSignature "hello" "zz" alice = Ret false
  /\ utils.VerifyEthereumSignature "hello" "0x00" alice = Ret false
  /\ utils.VerifyEthereumSignature "hello" (sign alice_key "hello" 41) alice
     = Ret false.
Proof.
  split; [|split].
  - apply (proj1 (proj2 (VerifyEthereumSignature_total_fails_closed
                           "hello" "zz" alice))).
    run.
  - apply (proj1 (proj2 (proj2 (VerifyEthereumSignature_total_fails_closed
                                  "hello" "0x00" alice))) [0]).
    + run.
    + vm_compute. discriminate.
  - apply (proj2 (proj2 (proj2 (VerifyEthereumSignature_total_fails_closed
                                  "hello" (sign alice_key "hello" 41) alice)))
                 (checksum (bytes_of_string
                              (utils.signedMessagePrefix 5 "hello"))
                    ++ alice_key ++ repeat 0 12 ++ [41])%list
                 "hello").
    + run.
    + run.
    + run.
Defined.

(** C7 does not hold as stated: parity byte 39, which is at least 35,
    is stored as 2 and not as 0 or 1; parity byte 29, which follows none
    of the three conventions, is stored as 2 and not as 0. *)
Lemma parity_byte_left_outside_0_1 :
  utils.adjustSignature (repeat 7 64 ++ [39]) = Ret (repeat 7 64 ++ [2])%list
  /\ utils.adjustSignature (repeat 7 64 ++ [29]) = Ret (repeat 7 64 ++ [2])%list.
Proof. split; run. Qed.

(** C7 at parity bytes 38 and 31, and at alice's signature of "hello"
    written with parity byte 27 and with parity byte 0. *)
Lemma parity_byte_normalization_witness :
  (exists v', utils.adjustSignature (repeat 7 64 ++ [38])
              = Ret (repeat 7 64 ++ [v'])%list /\ v' = 1)
  /\ (exists v', utils.adjustSignature (repeat 7 64 ++ [31])
                 = Ret (repeat 7 64 ++ [v'])%list /\ v' = 4)
  /\ utils.VerifyEthereumSignature "hello" (sign alice_key "hello" 27) alice
     = utils.VerifyEthereumSignature "hello" (sign alice_key "hello" 0) alice.
Proof.
  split; [|split].
  - destruct (proj1 parity_byte_normalization (repeat 7 64 ++ [38])%list)
      as (v' & Hrun & _ & _ & _ & H37 & _).
    + run.
    + vm_compute. split; [discriminate|reflexivity].
    + exists v'. split; [exact Hrun|].
      rewrite H37; [run|vm_compute; discriminate].
  - destruct (proj1 parity_byte_normalization (repeat 7 64 ++ [31])%list)
      as (v' & Hrun & _ & _ & _ & _ & H29 & _).
    + run.
    + vm_compute. split; [discriminate|reflexivity].
    + exists v'. split; [exact Hrun|].
      rewrite H29; [run|vm_compute; split; discriminate].
  - apply (proj2 parity_byte_normalization
                 "hello" (sign alice_key "hello" 27) (sign alice_key "hello" 0)
                 alice
                 (checksum (bytes_of_string
                              (utils.signedMessagePrefix 5 "hello"))
                    ++ alice_key ++ repeat 0 12)%list
                 0).
    + run.
    + now left.
    + run.
    + run.
Defined.

(** ** Login *)

(** C1 does not hold as stated: alice signs "hello", which is the login
    challenge for no nonce at all.  On a server that does not know her
    the login is answered 200 with a credential, and so it is on a
    server that holds a nonce for her. *)
Lemma login_without_challenge_is_accepted :
  let w := empty_world (draw 1 ++ draw 2) in
  find (Where_address alice) (users w) = None
  /\ (forall nonce, "hello" <> utils.GenerateMessageForSigning alice nonce)
  /\ fst (serve (handlers.LoginHandler hello_login) w)
     = {| Status := StatusOK;
          Body := JObj [("success", JBool true);
                        ("token", JStr (alice ++ ":" ++ nonce_of 2));
                        ("address", JStr alice)] |}
  /\ fst (serve (handlers.LoginHandler hello_login) vault)
     = {| Status := StatusOK;
          Body := JObj [("success", JBool true);
                        ("token", JStr (alice ++ ":" ++ nonce_of 3));
                        ("address", JStr alice)] |}.
Proof.
  split; [run|]. split; [|split; run].
  intros nonce. unfold utils.GenerateMessageForSigning. cbn [append].
  discriminate.
Qed.

(** C1 at alice's "hello" on a server that does not know her. *)
Lemma login_needs_verified_signature_and_provisions_unknown_witness :
  let w := empty_world (draw 1 ++ draw 2) in
  (exists req,
      ShouldBindJSON hello_login LoginRequest_binding = Some req
      /\ utils.VerifyEthereumSignature
           (Login_Message req) (Login_Signature req) (Login_Address req)
         = Ret true)
  /\ (exists w' u',
         serve (handlers.LoginHandler hello_login) w
         = ({| Status := StatusOK;
               Body := JObj [("success", JBool true);
                             ("token",
                              JStr (alice ++ ":"
                                    ++ next_nonce (skipn 32 (entropy w))));
                             ("address", JStr alice)] |}, w')
         /\ find (Where_address alice) (users w') = Some u'
         /\ User_Nonce u' = next_nonce (skipn 32 (entropy w))).
Proof.
  intros w. split.
  - apply (proj1 login_needs_verified_signature_and_provisions_unknown
                 hello_login w
                 (snd (serve (handlers.LoginHandler hello_login) w))
                 (fst (serve (handlers.LoginHandler hello_login) w))).
    + apply surjective_pairing.
    + run.
  - apply (proj2 login_needs_verified_signature_and_provisions_unknown
                 hello_login w
                 {| Login_Address := alice;
                    Login_Signature := sign alice_key "hello" 0;
                    Login_Message := "hello"; Login_Nonce := "whatever" |}).
    + run.
    + run.
    + run.
    + vm_compute. repeat constructor.
Defined.

(** C2 on the login side: alice answers the challenge for the stored
    nonce and is logged in; the stored nonce is now another one, and yet
    the same request, sent again, is answered 200 with a new credential
    instead of 401. *)
Lemma login_replay_is_accepted :
  let first := serve (handlers.LoginHandler challenge_login) vault in
  let again := serve (handlers.LoginHandler challenge_login) (snd first) in
  option_map User_Nonce (find (Where_address alice) (users vault))
  = Some (nonce_of 160)
  /\ Status (fst first) = StatusOK
  /\ option_map User_Nonce (find (Where_address alice) (users (snd first)))
     = Some (nonce_of 3)
  /\ fst again
     = {| Status := StatusOK;
          Body := JObj [("success", JBool true);
                        ("token", JStr (alice ++ ":" ++ nonce_of 4));
                        ("address", JStr alice)] |}.
Proof. cbv zeta. run_each. Qed.

(** The decrypt side of the same scenario does reject the replay. *)
Lemma decrypt_replay_is_rejected :
  let c := signed_decrypt (alice ++ ":" ++ nonce_of 160) alice_key 1
                          "m" (nonce_of 192) in
  let first := serve (handlers.DecryptContentHandler c) vault in
  Status (fst first) = StatusOK
  /\ serve (handlers.DecryptContentHandler c) (snd first)
     = ({| Status := StatusUnauthorized;
           Body := ErrorResponse "Invalid nonce" |}, snd first).
Proof.
  intros c first. split; [run|].
  apply (Decrypt_replay_rejected c vault (fst first)).
  - apply surjective_pairing.
  - run.
  - intros req [= <-]. vm_compute. discriminate.
Qed.

(** C10 at alice's answer to her challenge. *)
Lemma login_token_is_address_colon_nonce_witness :
  let run1 := serve (handlers.LoginHandler challenge_login) vault in
  Status (fst run1) = StatusOK
  /\ exists req newNonce u',
      ShouldBindJSON challenge_login LoginRequest_binding = Some req
      /\ Body (fst run1)
         = JObj [("success", JBool true);
                 ("token", JStr (Login_Address req ++ ":" ++ newNonce));
                 ("address", JStr (Login_Address req))]
      /\ find (Where_address (Login_Address req)) (users (snd run1)) = Some u'
      /\ User_Nonce u' = newNonce
      /\ (newNonce = next_nonce (entropy vault)
          \/ newNonce = next_nonce (skipn 32 (entropy vault))).
Proof.
  intros run1. split; [run|].
  apply (login_token_is_address_colon_nonce
           challenge_login vault (snd run1) (fst run1)).
  - apply surjective_pairing.
  - run.
Defined.

(** ** Nonces *)

(** C4 does not hold as stated: carol is unknown.  Asking for her nonce
    returns one, leaves her unknown, and asking again returns another. *)
Lemma GetNonce_unknown_twice_differs :
  let first := serve (handlers.GetNonceHandler (get_nonce carol)) vault in
  let again := serve (handlers.GetNonceHandler (get_nonce carol)) (snd first) in
  fst first = {| Status := StatusOK;
                 Body := JObj [("nonce", JStr (nonce_of 3))] |}
  /\ find (Where_address carol) (users (snd first)) = None
  /\ fst again = {| Status := StatusOK;
                    Body := JObj [("nonce", JStr (nonce_of 4))] |}
  /\ nonce_of 3 <> nonce_of 4.
Proof. cbv zeta. run_each. vm_compute. discriminate. Qed.

(** C4 at alice, who is known, and at carol, who is not. *)
Lemma GetNonce_reads_or_draws_without_storing_witness :
  serve (handlers.GetNonceHandler (get_nonce alice)) vault
  = ({| Status := StatusOK;
        Body := JObj [("nonce", JStr (nonce_of 160))] |}, vault)
  /\ serve (handlers.GetNonceHandler (get_nonce carol)) vault
     = ({| Status := StatusOK;
           Body := JObj [("nonce", JStr (next_nonce (entropy vault)))] |},
        with_entropy vault (skipn 32 (entropy vault))).
Proof.
  split.
  - refine (proj1 (GetNonce_reads_or_draws_without_storing
                     (get_nonce alice) vault _) alice_row _).
    + vm_compute. discriminate.
    + run.
  - refine (proj1 (proj2 (GetNonce_reads_or_draws_without_storing
                            (get_nonce carol) vault _) _ _)).
    + vm_compute. discriminate.
    + run.
    + vm_compute. repeat constructor.
Defined.

(** ** Content *)

(** C3 does not hold as stated: alice logs in and gets a credential;
    she logs in again, which rotates her nonce, so the first credential
    is bound to a stale nonce.  Presented afterwards, it is still served
    by all four content operations. *)
Lemma stale_credential_is_still_served :
  let first := serve (handlers.LoginHandler challenge_login) vault in
  let second := serve (handlers.LoginHandler challenge_login) (snd first) in
  let credential := alice ++ ":" ++ nonce_of 3 in
  let w := snd second in
  Body (fst first) = JObj [("success", JBool true);
                           ("token", JStr credential);
                           ("address", JStr alice)]
  /\ option_map User_Nonce (find (Where_address alice) (users w))
     = Some (nonce_of 4)
  /\ Status (fst (serve (handlers.CreateContentHandler
                           (create credential "note")) w)) = StatusOK
  /\ Status (fst (serve (handlers.ListContentHandler
                           (list_contents credential)) w)) = StatusOK
  /\ Status (fst (serve (handlers.DecryptContentHandler
                           (signed_decrypt credential alice_key 1 "m"
                                           (nonce_of 192))) w)) = StatusOK
  /\ Status (fst (serve (handlers.GetContentDetailHandler
                           (get_detail credential "1")) w)) = StatusOK.
Proof. cbv zeta. run_each. Qed.

(** C3 at alice's address with two nonces, for each content handler. *)
Lemma content_handlers_ignore_credential_nonce_witness :
  let stale := alice ++ ":" ++ nonce_of 3 in
  let fresh := alice ++ ":" ++ nonce_of 4 in
  serve (handlers.CreateContentHandler
           (with_Authorization (create EmptyString "note") stale)) vault
  = serve (handlers.CreateContentHandler
             (with_Authorization (create EmptyString "note") fresh)) vault
  /\ serve (handlers.ListContentHandler
              (with_Authorization (list_contents EmptyString) stale)) vault
     = serve (handlers.ListContentHandler
                (with_Authorization (list_contents EmptyString) fresh)) vault.
Proof.
  intros stale fresh.
  destruct (content_handlers_ignore_credential_nonce
              alice (nonce_of 3) (nonce_of 4) vault)
    as (Hcreate & Hlist & _ & _).
  - run.
  - split; [apply Hcreate|apply Hlist].
Defined.

(** C5 does not hold as stated: for alice's record, a request signed
    by the wrong key and a request correctly signed over a nonce that is
    not the record's are both answered 401, with different payloads. *)
Lemma decrypt_unauthorized_payloads_differ :
  let credential := alice ++ ":" ++ nonce_of 160 in
  let forged := signed_decrypt credential bob_key 1 "m" (nonce_of 192) in
  let stale := signed_decrypt credential alice_key 1 "m" (nonce_of 193) in
  serve (handlers.DecryptContentHandler forged) vault
  = ({| Status := StatusUnauthorized;
        Body := JObj [("error", JStr "Invalid signature")] |}, vault)
  /\ serve (handlers.DecryptContentHandler stale) vault
     = ({| Status := StatusUnauthorized;
           Body := JObj [("error", JStr "Invalid nonce")] |}, vault)
  /\ fst (serve (handlers.DecryptContentHandler forged) vault)
     <> fst (serve (handlers.DecryptContentHandler stale) vault).
Proof. cbv zeta. run_each. vm_compute. discriminate. Qed.

(** C5 at the same two requests. *)
Lemma decrypt_unauthorized_same_status_distinct_payload_witness :
  let credential := alice ++ ":" ++ nonce_of 160 in
  let forged := signed_decrypt credential bob_key 1 "m" (nonce_of 192) in
  let stale := signed_decrypt credential alice_key 1 "m" (nonce_of 193) in
  serve (handlers.DecryptContentHandler forged) vault
  = ({| Status := StatusUnauthorized;
        Body := ErrorResponse "Invalid signature" |}, vault)
  /\ serve (handlers.DecryptContentHandler stale) vault
     = ({| Status := StatusUnauthorized;
           Body := ErrorResponse "Invalid nonce" |}, vault).
Proof.
  intros credential forged stale. split.
  - refine (proj1 (decrypt_unauthorized_same_status_distinct_payload
                     forged vault
                     {| Decrypt_ContentID := 1;
                        Decrypt_Signature :=
                          sign bob_key
                               (utils.GenerateDecryptMessage 1 (nonce_of 192)) 0;
                        Decrypt_Message := "m";
                        Decrypt_Nonce := nonce_of 192 |}
                     alice _ _ _) _).
    + run.
    + vm_compute. discriminate.
    + run.
    + run.
  - refine (proj1 (proj2 (decrypt_unauthorized_same_status_distinct_payload
                            stale vault
                            {| Decrypt_ContentID := 1;
                               Decrypt_Signature :=
                                 sign alice_key
                                      (utils.GenerateDecryptMessage
                                         1 (nonce_of 193)) 0;
                               Decrypt_Message := "m";
                               Decrypt_Nonce := nonce_of 193 |}
                            alice _ _ _)) record1 _ _ _).
    + run.
    + vm_compute. discriminate.
    + run.
    + run.
    + run.
    + vm_compute. discriminate.
Defined.

(** C6 at bob, correctly signing a request for alice's record 1 and one
    for record 99, which does not exist. *)
Lemma decrypt_foreign_record_reported_as_missing_witness :
  let credential := bob ++ ":" ++ nonce_of 176 in
  let foreign := signed_decrypt credential bob_key 1 "m" (nonce_of 192) in
  let missing := signed_decrypt credential bob_key 99 "m" (nonce_of 192) in
  serve (handlers.DecryptContentHandler foreign) vault
  = ({| Status := StatusNotFound;
        Body := ErrorResponse "Content not found" |}, vault)
  /\ serve (handlers.DecryptContentHandler missing) vault
     = ({| Status := StatusNotFound;
           Body := ErrorResponse "Content not found" |}, vault).
Proof.
  intros credential foreign missing.
  refine (decrypt_foreign_record_reported_as_missing
            foreign missing vault vault
            {| Decrypt_ContentID := 1;
               Decrypt_Signature :=
                 sign bob_key (utils.GenerateDecryptMessage 1 (nonce_of 192)) 0;
               Decrypt_Message := "m"; Decrypt_Nonce := nonce_of 192 |}
            {| Decrypt_ContentID := 99;
               Decrypt_Signature :=
                 sign bob_key (utils.GenerateDecryptMessage 99 (nonce_of 192)) 0;
               Decrypt_Message := "m"; Decrypt_Nonce := nonce_of 192 |}
            bob bob record1 _ _ _ _ _ _ _ _ _ _ _ _).
  - run.
  - vm_compute. discriminate.
  - run.
  - run.
  - run.
  - vm_compute. discriminate.
  - run.
  - run.
  - now left.
  - run.
  - intros row [<- | []] _. vm_compute. discriminate.
  - intros row [<- | []]. vm_compute. discriminate.
Defined.

(** C9 does not hold as stated: two requests of alice for her record
    that differ only in the [message] field, "m" in one and empty in
    the other; the first is authorized, the second answered 400. *)
Lemma decrypt_empty_message_is_rejected :
  let credential := alice ++ ":" ++ nonce_of 160 in
  fst (serve (handlers.DecryptContentHandler
                (signed_decrypt credential alice_key 1 "m" (nonce_of 192)))
             vault)
  = {| Status := StatusOK;
       Body := JObj [("content",
                      ContentDetailResponse 1 "seed phrase"
                        "[ENCRYPTED - DECRYPT ON CLIENT]" 1690000200);
                     ("encrypted_data", JStr "ciphertext");
                     ("encrypted_key", JStr "wrapped key");
                     ("iv", JStr "iv");
                     ("success", JBool true)] |}
  /\ fst (serve (handlers.DecryptContentHandler
                   (signed_decrypt credential alice_key 1 EmptyString
                                   (nonce_of 192)))
                vault)
     = {| Status := StatusBadRequest;
          Body := ErrorResponse "Invalid request format" |}.
Proof. split; run. Qed.

(** C9 at the same request with [message] "m" and "anything else". *)
Lemma decrypt_ignores_nonempty_message_witness :
  let credential := alice ++ ":" ++ nonce_of 160 in
  serve (handlers.DecryptContentHandler
           (signed_decrypt credential alice_key 1 "m" (nonce_of 192))) vault
  = serve (handlers.DecryptContentHandler
             (signed_decrypt credential alice_key 1 "anything else"
                             (nonce_of 192))) vault.
Proof.
  intros credential.
  refine (decrypt_ignores_nonempty_message
            (signed_decrypt credential alice_key 1 "m" (nonce_of 192)) vault
            {| Decrypt_ContentID := 1;
               Decrypt_Signature :=
                 sign alice_key
                      (utils.GenerateDecryptMessage 1 (nonce_of 192)) 0;
               Decrypt_Message := "m"; Decrypt_Nonce := nonce_of 192 |}
            "anything else" _ _ _).
  - reflexivity.
  - discriminate.
  - discriminate.
Defined.

End Scenario.

(* ================================================================== *)
(** * More about package utils *)
(* ================================================================== *)

Section ChallengeFacts.

Lemma append_inv_head (a x y : string) : a ++ x = a ++ y -> x = y.
Proof.
  induction a as [|c a IH]; simpl; intros Heq; [exact Heq|].
  injection Heq as Heq. now apply IH.
Qed.

Lemma append_inv_same_length (a b x y : string) :
  String.length a = String.length b -> a ++ x = b ++ y -> a = b /\ x = y.
Proof.
  revert b; induction a as [|c a IH]; intros [|d b]; simpl;
    intros Hl Heq; try discriminate.
  - now split.
  - injection Hl as Hl. injection Heq as -> Heq.
    destruct (IH b Hl Heq) as [-> ->]. now split.
Qed.

(** A decimal numeral followed by a comma can be read back in one way
    only: no digit is a comma. *)
Lemma numeral_comma_inv (d1 d2 : Decimal.uint) (r1 r2 : string) :
  NilEmpty.string_of_uint d1 ++ String "," r1
  = NilEmpty.string_of_uint d2 ++ String "," r2 ->
  d1 = d2 /\ r1 = r2.
Proof.
  revert d2; induction d1 as [|d1 IH|d1 IH|d1 IH|d1 IH|d1 IH
                              |d1 IH|d1 IH|d1 IH|d1 IH|d1 IH];
    intros [|d2|d2|d2|d2|d2|d2|d2|d2|d2|d2]; simpl; intros Heq;
    try discriminate;
    try (injection Heq as Heq; destruct (IH d2 Heq) as [-> ->]; now split).
  injection Heq as ->. now split.
Qed.

(** The decrypt challenge determines the record id and the nonce it was
    built from: challenges for two records, or for two nonces of one
    record, are never the same string. *)
Theorem GenerateDecryptMessage_injective
        (contentID1 contentID2 : N) (nonce1 nonce2 : string) :
  utils.GenerateDecryptMessage contentID1 nonce1
  = utils.GenerateDecryptMessage contentID2 nonce2 ->
  contentID1 = contentID2 /\ nonce1 = nonce2.
Proof.
  unfold utils.GenerateDecryptMessage, itoa. intros Heq.
  apply append_inv_head in Heq.
  change (", Nonce: " ++ nonce1) with (String "," (" Nonce: " ++ nonce1)) in Heq.
  change (", Nonce: " ++ nonce2) with (String "," (" Nonce: " ++ nonce2)) in Heq.
  apply numeral_comma_inv in Heq as [Hid Hn].
  split.
  - now apply DecimalN.Unsigned.to_uint_inj.
  - now apply append_inv_head in Hn.
Qed.

(** The login challenge determines the nonce, and the address too among
    addresses of one length (such as the 42 bytes of a hex address). *)
Theorem GenerateMessageForSigning_injective
        (address1 address2 nonce1 nonce2 : string) :
  len address1 = len address2 ->
  utils.GenerateMessageForSigning address1 nonce1
  = utils.GenerateMessageForSigning address2 nonce2 ->
  address1 = address2 /\ nonce1 = nonce2.
Proof.
  unfold utils.GenerateMessageForSigning, len. intros Hl Heq.
  apply append_inv_head in Heq.
  apply append_inv_same_length in Heq as [-> Hn]; [|exact Hl].
  split; [reflexivity|]. now apply append_inv_head in Hn.
Qed.

(** Without the condition on the lengths the address and the nonce
    cannot be told apart: the format has no escaping. *)
Lemma GenerateMessageForSigning_ambiguous :
  utils.GenerateMessageForSigning "0xab, Nonce: 01" "02"
  = utils.GenerateMessageForSigning "0xab" "01, Nonce: 02".
Proof. reflexivity. Qed.

End ChallengeFacts.

Section NonceFacts.



Lemma EncodeToString_length (b : list Z) :
  len (hex.EncodeToString b) = (2 * List.length b)%nat.
Proof.
  unfold len. induction b as [|x b IH]; [reflexivity|].
  cbn [hex.EncodeToString String.length List.length]. rewrite IH. lia.
Qed.


Lemma next_nonce_length (random : list Z) :
  (32 <= List.length random)%nat -> len (next_nonce random) = 64%nat.
Proof.
  intros Hl. unfold next_nonce.
  rewrite EncodeToString_length, length_firstn. lia.
Qed.


End NonceFacts.

Section StringFacts.

Lemma substring_short (s : string) (n : nat) :
  (String.length s <= n)%nat -> String.substring 0 n s = s.
Proof.
  revert n; induction s as [|c s IH]; intros [|n] Hl; simpl in *;
    try reflexivity; try lia.
  now rewrite IH by lia.
Qed.

Lemma substring_length (s : string) (n : nat) :
  String.length (String.substring 0 n s) = Nat.min n (String.length s).
Proof.
  revert n; induction s as [|c s IH]; intros [|n]; simpl; try reflexivity.
  now rewrite IH.
Qed.

Lemma get_append_last (m : string) (c : ascii) :
  String.get (String.length m) (m ++ String c EmptyString) = Some c.
Proof. induction m as [|d m IH]; simpl; auto. Qed.

Lemma last_char (s : string) :
  (1 <= String.length s)%nat -> exists m b, s = m ++ String b EmptyString.
Proof.
  induction s as [|c s IH]; simpl; [lia|]. intros _.
  destruct s as [|d s].
  - now exists EmptyString, c.
  - destruct IH as (m & b & Heq); [simpl; lia|].
    exists (String c m), b. simpl. now rewrite Heq.
Qed.

(** A string of two characters or more is a first character, a middle
    and a last character. *)
Lemma both_ends (s : string) :
  (2 <= String.length s)%nat ->
  exists a m b, s = String a (m ++ String b EmptyString).
Proof.
  destruct s as [|a s]; simpl; [lia|]. intros Hl.
  destruct (last_char s) as (m & b & ->); [lia|].
  now exists a, m, b.
Qed.

End StringFacts.

Section CleaningFacts.
Context {E : External}.

Let quoted (m : string) : string :=
  String utils.quote (m ++ String utils.quote EmptyString).

Lemma stripQuotes_quoted (m : string) : utils.stripQuotes (quoted m) = Ret m.
Proof.
  unfold utils.stripQuotes, quoted, len, index, slice, len.
  cbn [String.length String.get]. rewrite length_append.
  cbn [String.length]. rewrite Nat.add_1_r.
  cbn [Nat.leb Go.bind Nat.sub]. rewrite Ascii.eqb_refl.
  rewrite get_append_last. cbn [Go.bind].
  rewrite Ascii.eqb_refl.
  replace (String.length m <=? S (String.length m))%nat with true
    by (symmetry; apply Nat.leb_le; lia).
  cbn [andb String.substring]. rewrite Nat.sub_0_r.
  now rewrite substring_prefix.
Qed.

(** The quote-stripping lines of [VerifyEthereumSignature]: a message
    enclosed in a pair of double quotes loses exactly that pair (an
    inner pair stays), and every other message is left as it is. *)
Theorem stripQuotes_strips_one_enclosing_pair (s : string) :
  (forall m,
      s = String utils.quote (m ++ String utils.quote EmptyString) ->
      utils.stripQuotes s = Ret m)
  /\ ((forall m,
          s <> String utils.quote (m ++ String utils.quote EmptyString)) ->
      utils.stripQuotes s = Ret s).
Proof.
  split.
  - intros m ->. apply stripQuotes_quoted.
  - intros Hnot. unfold utils.stripQuotes.
    destruct (2 <=? len s)%nat eqn:Hl; [|reflexivity].
    apply Nat.leb_le in Hl.
    destruct (both_ends s Hl) as (a & m & b & ->).
    unfold index, len. cbn [String.get String.length Go.bind].
    rewrite length_append. cbn [String.length].
    rewrite Nat.add_1_r. cbn [Nat.sub].
    rewrite get_append_last. cbn [Go.bind].
    destruct (Ascii.eqb a utils.quote) eqn:Ha; [|reflexivity].
    destruct (Ascii.eqb b utils.quote) eqn:Hb; [|reflexivity].
    apply Ascii.eqb_eq in Ha, Hb. subst a b.
    now destruct (Hnot m).
Qed.

Lemma substring_whole (s : string) :
  String.substring 0 (String.length s) s = s.
Proof. apply substring_short. lia. Qed.

(** The hex prefix of a signature: without ["0x"] the signature is read
    as if it had it; with the upper-case ["0X"], which go-ethereum's
    decoder would take, the handler's own ["0x"] is put in front and the
    signature is refused whatever follows. *)
Theorem signature_prefix_optional_but_lower_case
        (message signature expectedAddress : string) :
  (HasPrefix signature "0x" = false ->
   utils.VerifyEthereumSignature message signature expectedAddress
   = utils.VerifyEthereumSignature message ("0x" ++ signature) expectedAddress)
  /\ utils.VerifyEthereumSignature message ("0X" ++ signature) expectedAddress
     = Ret false.
Proof.
  unfold utils.VerifyEthereumSignature.
  destruct (cleanMessage_returns message) as [cleaned ->]. cbn [Go.bind].
  split.
  - intros Hp. unfold utils.ensure0x.
    assert (Hq : HasPrefix ("0x" ++ signature) "0x" = true)
      by (now destruct signature).
    rewrite Hp, Hq. reflexivity.
  - unfold utils.ensure0x, hexutil.Decode, len.
    cbn [append HasPrefix Ascii.eqb Bool.eqb andb negb String.length
         Nat.eqb hexutil.has0xPrefix orb Nat.sub String.substring].
    rewrite substring_whole. reflexivity.
Qed.


(** The caller's address as the content handlers read it: the whole
    [Authorization] header when it has at most 42 bytes, its first 42
    bytes otherwise; taking it never goes out of bounds. *)
Theorem userAddressOf_is_the_first_42_bytes (authHeader : string) :
  exists userAddress,
    handlers.userAddressOf authHeader = Ret userAddress
    /\ userAddress = String.substring 0 42 authHeader
    /\ len userAddress = Nat.min 42 (len authHeader)
    /\ ((len authHeader <= 42)%nat -> userAddress = authHeader).
Proof.
  exists (String.substring 0 42 authHeader).
  unfold len. rewrite substring_length.
  split; [|split; [reflexivity|split; [reflexivity|]]].
  - unfold handlers.userAddressOf, len.
    destruct (0 <? String.length authHeader)%nat eqn:H0.
    + destruct (42 <? String.length authHeader)%nat eqn:H42.
      * apply Nat.ltb_lt in H42.
        now rewrite slice_in_range by (unfold len; lia).
      * apply Nat.ltb_ge in H42. now rewrite substring_short.
    + apply Nat.ltb_ge in H0. destruct authHeader; [reflexivity|].
      simpl in H0. lia.
  - intros Hl. now apply substring_short.
Qed.

End CleaningFacts.

(* ================================================================== *)
(** * The store stays well formed *)
(* ================================================================== *)

Section StoreFacts.
Import database.

Lemma NoDup_map_injective {A B} (f : A -> B) (l : list A) (x y : A) :
  NoDup (map f l) -> In x l -> In y l -> f x = f y -> x = y.
Proof.
  induction l as [|z l IH]; cbn [map]; intros Hnd Hx Hy Heq; [easy|].
  apply NoDup_cons_iff in Hnd as [Hz Hnd].
  destruct Hx as [-> | Hx], Hy as [-> | Hy]; auto.
  - destruct Hz. rewrite Heq. now apply in_map.
  - destruct Hz. rewrite <- Heq. now apply in_map.
Qed.

Lemma find_none_not_in {A} (p : A -> bool) (l : list A) (x : A) :
  find p l = None -> In x l -> p x = false.
Proof. intros Hf Hin. exact (find_none p l Hf x Hin). Qed.

Lemma users_ok_create (us : list User) (seq : N) (row : User) :
  users_ok us seq ->
  find (Where_address (User_Address row)) us = None ->
  User_ID row = (seq + 1)%N ->
  len (User_Nonce row) = 64%nat ->
  users_ok (us ++ [row]) (seq + 1).
Proof.
  intros [Hid Haddr Hle Hn] Hf Hrow Hlen. split.
  - rewrite map_app. apply NoDup_app; [exact Hid|repeat constructor; easy|].
    intros i Hi [<- | []].
    apply in_map_iff in Hi as (u & Hu & Hin).
    rewrite Forall_forall in Hle. specialize (Hle u Hin). lia.
  - rewrite map_app. apply NoDup_app; [exact Haddr|repeat constructor; easy|].
    intros a Ha [<- | []].
    apply in_map_iff in Ha as (u & Hu & Hin).
    pose proof (find_none_not_in _ _ u Hf Hin) as Hp.
    unfold Where_address in Hp. apply String.eqb_neq in Hp. now destruct Hp.
  - apply Forall_app. split.
    + eapply Forall_impl; [|exact Hle]. cbn beta. intros u Hu. lia.
    + repeat constructor. lia.
  - apply Forall_app. split; [exact Hn|]. now repeat constructor.
Qed.

(** [Save] of a row that was read from the table. *)
Lemma users_ok_save (us : list User) (seq : N) (u row : User) :
  users_ok us seq ->
  In u us ->
  User_ID row = User_ID u ->
  User_Address row = User_Address u ->
  len (User_Nonce row) = 64%nat ->
  users_ok (map (fun r => if (User_ID r =? User_ID u)%N then row else r) us) seq.
Proof.
  intros [Hid Haddr Hle Hn] Hin Hrid Hraddr Hlen.
  assert (Hids : map User_ID
                     (map (fun r => if (User_ID r =? User_ID u)%N
                                    then row else r) us)
                 = map User_ID us).
  { rewrite map_map. apply map_ext. intros r.
    destruct (N.eqb_spec (User_ID r) (User_ID u)); congruence. }
  assert (Haddrs : map User_Address
                       (map (fun r => if (User_ID r =? User_ID u)%N
                                      then row else r) us)
                   = map User_Address us).
  { rewrite map_map. apply map_ext_in. intros r Hr.
    destruct (N.eqb_spec (User_ID r) (User_ID u)) as [Heq|]; [|reflexivity].
    rewrite (NoDup_map_injective User_ID us r u Hid Hr Hin Heq). exact Hraddr. }
  rewrite Forall_forall in Hle, Hn.
  split.
  - now rewrite Hids.
  - now rewrite Haddrs.
  - apply Forall_forall. intros r Hr.
    apply in_map_iff in Hr as (r0 & <- & Hr0).
    destruct (User_ID r0 =? User_ID u)%N; [rewrite Hrid|]; auto.
  - apply Forall_forall. intros r Hr.
    apply in_map_iff in Hr as (r0 & <- & Hr0).
    destruct (User_ID r0 =? User_ID u)%N; auto.
Qed.

Lemma contents_ok_create (cs : list EncryptedContent) (seq : N)
      (row : EncryptedContent) :
  contents_ok cs seq ->
  Content_ID row = (seq + 1)%N ->
  len (Content_Nonce row) = 64%nat ->
  contents_ok (cs ++ [row]) (seq + 1).
Proof.
  intros [Hid Hle Hn] Hrow Hlen. split.
  - rewrite map_app. apply NoDup_app; [exact Hid|repeat constructor; easy|].
    intros i Hi [<- | []].
    apply in_map_iff in Hi as (c & Hc & Hin).
    rewrite Forall_forall in Hle. specialize (Hle c Hin). lia.
  - apply Forall_app. split.
    + eapply Forall_impl; [|exact Hle]. cbn beta. intros c Hc. lia.
    + repeat constructor. lia.
  - apply Forall_app. split; [exact Hn|]. now repeat constructor.
Qed.

Lemma contents_ok_save (cs : list EncryptedContent) (seq : N)
      (c row : EncryptedContent) :
  contents_ok cs seq ->
  In c cs ->
  Content_ID row = Content_ID c ->
  len (Content_Nonce row) = 64%nat ->
  contents_ok
    (map (fun r => if (Content_ID r =? Content_ID c)%N then row else r) cs) seq.
Proof.
  intros [Hid Hle Hn] Hin Hrid Hlen.
  assert (Hids : map Content_ID
                     (map (fun r => if (Content_ID r =? Content_ID c)%N
                                    then row else r) cs)
                 = map Content_ID cs).
  { rewrite map_map. apply map_ext. intros r.
    destruct (N.eqb_spec (Content_ID r) (Content_ID c)); congruence. }
  rewrite Forall_forall in Hle, Hn.
  split.
  - now rewrite Hids.
  - apply Forall_forall. intros r Hr.
    apply in_map_iff in Hr as (r0 & <- & Hr0).
    destruct (Content_ID r0 =? Content_ID c)%N; [rewrite Hrid|]; auto.
  - apply Forall_forall. intros r Hr.
    apply in_map_iff in Hr as (r0 & <- & Hr0).
    destruct (Content_ID r0 =? Content_ID c)%N; auto.
Qed.

Lemma find_some_in {A} (p : A -> bool) (l : list A) (x : A) :
  find p l = Some x -> In x l.
Proof. intros Hf. now apply find_some in Hf. Qed.

End StoreFacts.

Section StoreInvariant.
Context {E : External}.
Import database.

Lemma Login_keeps_store_ok (c : Context LoginRequest) (w : World) :
  store_ok w -> store_ok (snd (serve (handlers.LoginHandler c) w)).
Proof.
  intros Hok. pose proof Hok as [Hu Hc].
  unfold handlers.LoginHandler.
  destruct (ShouldBindJSON c LoginRequest_binding) as [req|]; [|exact Hok].
  unfold_monad.
  destruct (utils.VerifyEthereumSignature _ _ _) as [[|]|]; cbn [negb];
    try exact Hok.
  destruct (find _ (users w)) as [u|] eqn:Hf.
  - destruct (32 <=? List.length (entropy w))%nat eqn:He; [|exact Hok].
    world_simpl.
    rewrite (find_some_selected _ (fun r => (User_ID r =? User_ID u)%N) _ _
                                Hf (N.eqb_refl _)).
    cbn [snd]. split; world_simpl; [|exact Hc].
    apply users_ok_save; auto.
    + now apply find_some_in in Hf.
    + apply next_nonce_length. now apply Nat.leb_le.
  - destruct (32 <=? List.length (entropy w))%nat eqn:He; [|exact Hok].
    world_simpl. rewrite (find_none_existsb _ _ Hf). world_simpl.
    assert (Hnew : users_ok
                     (users w ++
                      [{| User_ID := users_seq w + 1;
                          User_Address := Login_Address req;
                          User_PublicKey := EmptyString;
                          User_Nonce := next_nonce (entropy w);
                          User_CreatedAt := now w;
                          User_UpdatedAt := now w |}])
                     (users_seq w + 1)).
    { apply users_ok_create; auto.
      apply next_nonce_length. now apply Nat.leb_le. }
    destruct (32 <=? List.length (skipn 32 (entropy w)))%nat eqn:He2.
    + world_simpl. rewrite existsb_app. cbn [existsb User_ID].
      rewrite N.eqb_refl, !orb_true_r.
      cbn [snd]. split; world_simpl; [|exact Hc].
      match goal with
      | |- users_ok (map _ (_ ++ [?row])) _ =>
          apply (users_ok_save _ _ row)
      end; auto.
      * apply in_or_app. right. now left.
      * apply next_nonce_length. now apply Nat.leb_le.
    + cbn [snd]. split; world_simpl; [exact Hnew|exact Hc].
Qed.

Lemma Register_keeps_store_ok (c : Context RegisterPublicKeyRequest) (w : World) :
  store_ok w -> store_ok (snd (serve (handlers.RegisterPublicKeyHandler c) w)).
Proof.
  intros Hok. pose proof Hok as [Hu Hc].
  unfold handlers.RegisterPublicKeyHandler.
  destruct (ShouldBindJSON c RegisterPublicKeyRequest_binding) as [req|];
    [|exact Hok].
  unfold_monad.
  destruct (utils.VerifyEthereumSignature _ _ _) as [[|]|]; cbn [negb];
    try exact Hok.
  destruct (find _ (users w)) as [u|] eqn:Hf; [|exact Hok].
  world_simpl.
  rewrite (find_some_selected _ (fun r => (User_ID r =? User_ID u)%N) _ _
                              Hf (N.eqb_refl _)).
  cbn [snd]. split; world_simpl; [|exact Hc].
  apply users_ok_save; auto.
  - now apply find_some_in in Hf.
  - destruct Hu as [_ _ _ Hn]. rewrite Forall_forall in Hn.
    apply (Hn u). now apply find_some_in in Hf.
Qed.

Lemma GetNonce_keeps_store_ok (c : Context unit) (w : World) :
  store_ok w -> store_ok (snd (serve (handlers.GetNonceHandler c) w)).
Proof.
  intros Hok. unfold handlers.GetNonceHandler.
  destruct (len (Query c "address") =? 0)%nat; [exact Hok|].
  unfold_monad.
  destruct (find _ (users w)); [exact Hok|].
  destruct (32 <=? List.length (entropy w))%nat; exact Hok.
Qed.

Lemma Create_keeps_store_ok (c : Context CreateContentRequest) (w : World) :
  store_ok w -> store_ok (snd (serve (handlers.CreateContentHandler c) w)).
Proof.
  intros Hok. pose proof Hok as [Hu Hc].
  unfold handlers.CreateContentHandler.
  destruct (ShouldBindJSON c CreateContentRequest_binding) as [req|];
    [|exact Hok].
  destruct (len (GetHeader c "Authorization") =? 0)%nat; [exact Hok|].
  unfold_monad.
  destruct (handlers.userAddressOf _) as [a|]; [|exact Hok].
  destruct (find _ (users w)); [|exact Hok].
  destruct (32 <=? List.length (entropy w))%nat eqn:He; [|exact Hok].
  cbn [snd]. split; world_simpl; [exact Hu|].
  apply contents_ok_create; auto.
  apply next_nonce_length. now apply Nat.leb_le.
Qed.

Lemma List_keeps_store_ok (c : Context unit) (w : World) :
  store_ok w -> store_ok (snd (serve (handlers.ListContentHandler c) w)).
Proof.
  intros Hok. unfold handlers.ListContentHandler.
  destruct (len (GetHeader c "Authorization") =? 0)%nat; [exact Hok|].
  unfold_monad.
  destruct (handlers.userAddressOf _) as [a|]; exact Hok.
Qed.

Lemma Decrypt_keeps_store_ok (c : Context DecryptContentRequest) (w : World) :
  store_ok w -> store_ok (snd (serve (handlers.DecryptContentHandler c) w)).
Proof.
  intros Hok. pose proof Hok as [Hu Hc].
  unfold handlers.DecryptContentHandler.
  destruct (ShouldBindJSON c DecryptContentRequest_binding) as [req|];
    [|exact Hok].
  destruct (len (GetHeader c "Authorization") =? 0)%nat; [exact Hok|].
  unfold_monad.
  destruct (handlers.userAddressOf _) as [a|]; [|exact Hok].
  destruct (utils.VerifyEthereumSignature _ _ _) as [[|]|]; cbn [negb];
    try exact Hok.
  destruct (find _ (contents w)) as [content|] eqn:Hf; [|exact Hok].
  destruct (String.eqb _ _); cbn [negb]; [|exact Hok].
  destruct (32 <=? List.length (entropy w))%nat eqn:He; [|exact Hok].
  world_simpl.
  rewrite (find_some_selected
             _ (fun r => (Content_ID r =? Content_ID content)%N) _ _
             Hf (N.eqb_refl _)).
  cbn [snd]. split; world_simpl; [exact Hu|].
  apply contents_ok_save; auto.
  - now apply find_some_in in Hf.
  - apply next_nonce_length. now apply Nat.leb_le.
Qed.

Lemma GetContentDetail_keeps_store_ok (c : Context unit) (w : World) :
  store_ok w -> store_ok (snd (serve (handlers.GetContentDetailHandler c) w)).
Proof.
  intros Hok. unfold handlers.GetContentDetailHandler.
  destruct (len (Param c "id") =? 0)%nat; [exact Hok|].
  destruct (len (GetHeader c "Authorization") =? 0)%nat; [exact Hok|].
  unfold_monad.
  destruct (handlers.userAddressOf _) as [a|]; [|exact Hok].
  destruct (find _ (contents w)); exact Hok.
Qed.

(** In every state the server can reach, primary keys are distinct and
    were issued by their counter, no two users share an address, and
    every stored nonce -- of a user or of a record -- is 64 characters
    long: the fresh database is such a state and each of the seven
    handlers, on any request and whatever it answers, leaves one. *)
Theorem reachable_store_ok (w : World) : reachable w -> store_ok w.
Proof.
  induction 1 as [random clock | w random clock _ IH
                  | c w _ IH | c w _ IH | c w _ IH | c w _ IH
                  | c w _ IH | c w _ IH | c w _ IH].
  - split; split; constructor.
  - exact IH.
  - now apply Login_keeps_store_ok.
  - now apply Register_keeps_store_ok.
  - now apply GetNonce_keeps_store_ok.
  - now apply Create_keeps_store_ok.
  - now apply List_keeps_store_ok.
  - now apply Decrypt_keeps_store_ok.
  - now apply GetContentDetail_keeps_store_ok.
Qed.

End StoreInvariant.

(* ================================================================== *)
(** * What a request changes, and what it leaves alone *)
(* ================================================================== *)


Section StateEffects.
Context {E : External}.
Import database.


End StateEffects.

Section MoreLogin.
Context {E : External}.
Import database.


Lemma find_overwrite_other {A} (p same : A -> bool) (l : list A) (row : A) :
  p row = false ->
  (forall r, In r l -> same r = true -> p r = false) ->
  find p (map (fun r => if same r then row else r) l) = find p l.
Proof.
  intros Hrow. induction l as [|y l IH]; cbn [map find]; intros Hsame;
    [reflexivity|].
  destruct (same y) eqn:Hy.
  - rewrite Hrow, (Hsame y) by (auto; now left).
    apply IH. intros r Hr. apply Hsame. now right.
  - destruct (p y); [reflexivity|].
    apply IH. intros r Hr. apply Hsame. now right.
Qed.

Lemma find_app_other {A} (p : A -> bool) (l : list A) (row : A) :
  p row = false -> find p (l ++ [row]) = find p l.
Proof.
  intros Hrow. induction l as [|y l IH]; cbn [app find].
  - now rewrite Hrow.
  - destruct (p y); [reflexivity|exact IH].
Qed.

(** A login, whatever it is answered, touches the row of its own
    address at most: the records are left as they are, and so is what
    the server holds for every other address -- nonce included. *)
Theorem login_touches_one_identity
        (c : Context LoginRequest) (w : World) (req : LoginRequest)
        (other : string) :
  store_ok w ->
  ShouldBindJSON c LoginRequest_binding = Some req ->
  other <> Login_Address req ->
  contents (snd (serve (handlers.LoginHandler c) w)) = contents w
  /\ find (Where_address other) (users (snd (serve (handlers.LoginHandler c) w)))
     = find (Where_address other) (users w).
Proof.
  intros [[Hid _ Hle _] _] Hb Hother.
  assert (Hrow : forall u : User,
             User_Address u = Login_Address req ->
             Where_address other u = false).
  { intros u Hu. unfold Where_address. rewrite Hu.
    apply String.eqb_neq. congruence. }
  unfold handlers.LoginHandler. rewrite Hb.
  unfold_monad.
  destruct (utils.VerifyEthereumSignature _ _ _) as [[|]|]; cbn [negb];
    try (split; reflexivity).
  destruct (find _ (users w)) as [u|] eqn:Hf.
  - destruct (32 <=? List.length (entropy w))%nat; [|split; reflexivity].
    world_simpl.
    rewrite (find_some_selected _ (fun r => (User_ID r =? User_ID u)%N) _ _
                                Hf (N.eqb_refl _)).
    cbn [snd]. world_simpl. split; [reflexivity|].
    pose proof (find_some_true _ _ _ Hf) as Hu.
    unfold Where_address in Hu. apply String.eqb_eq in Hu.
    apply find_overwrite_other.
    + apply Hrow. exact Hu.
    + intros r Hr Hsame. apply N.eqb_eq in Hsame.
      rewrite (NoDup_map_injective User_ID (users w) r u Hid Hr
                 (find_some_in _ _ _ Hf) Hsame).
      now apply Hrow.
  - destruct (32 <=? List.length (entropy w))%nat; [|split; reflexivity].
    world_simpl. rewrite (find_none_existsb _ _ Hf). world_simpl.
    destruct (32 <=? List.length (skipn 32 (entropy w)))%nat.
    + world_simpl. rewrite existsb_app. cbn [existsb User_ID].
      rewrite N.eqb_refl, !orb_true_r.
      cbn [snd]. world_simpl. split; [reflexivity|].
      rewrite map_app. cbn [map User_ID]. rewrite N.eqb_refl.
      rewrite find_app_other by now apply Hrow.
      apply find_overwrite_other; [now apply Hrow|].
      intros r Hr Hsame. apply N.eqb_eq in Hsame.
      rewrite Forall_forall in Hle. specialize (Hle r Hr). lia.
    + cbn [snd]. world_simpl. split; [reflexivity|].
      apply find_app_other. now apply Hrow.
Qed.

End MoreLogin.

Section MoreAuth.
Context {E : External}.
Import database.

(** Registering a public key: with a verified signature, the key of a
    known address is overwritten while its nonce stays as it was and no
    random byte is drawn -- so the very same request is accepted
    again; for an unknown address the answer is 404 and nothing
    changes. *)
Theorem register_stores_key_and_keeps_nonce
        (c : Context RegisterPublicKeyRequest) (w : World)
        (req : RegisterPublicKeyRequest) :
  ShouldBindJSON c RegisterPublicKeyRequest_binding = Some req ->
  utils.VerifyEthereumSignature
    (Register_Message req) (Register_Signature req) (Register_Address req)
  = Ret true ->
  (forall u,
      find (Where_address (Register_Address req)) (users w) = Some u ->
      exists w' u',
        serve (handlers.RegisterPublicKeyHandler c) w
        = ({| Status := StatusOK; Body := JObj [("success", JBool true)] |}, w')
        /\ find (Where_address (Register_Address req)) (users w') = Some u'
        /\ User_PublicKey u' = Register_PublicKey req
        /\ User_Nonce u' = User_Nonce u
        /\ entropy w' = entropy w
        /\ contents w' = contents w
        /\ fst (serve (handlers.RegisterPublicKeyHandler c) w')
           = {| Status := StatusOK; Body := JObj [("success", JBool true)] |})
  /\ (find (Where_address (Register_Address req)) (users w) = None ->
      serve (handlers.RegisterPublicKeyHandler c) w
      = ({| Status := StatusNotFound;
            Body := ErrorResponse "User not found" |}, w)).
Proof.
  intros Hb Hv.
  assert (Hrun : forall w0 u,
             find (Where_address (Register_Address req)) (users w0) = Some u ->
             exists w' u',
               serve (handlers.RegisterPublicKeyHandler c) w0
               = ({| Status := StatusOK;
                     Body := JObj [("success", JBool true)] |}, w')
               /\ find (Where_address (Register_Address req)) (users w')
                  = Some u'
               /\ User_PublicKey u' = Register_PublicKey req
               /\ User_Nonce u' = User_Nonce u
               /\ entropy w' = entropy w0
               /\ contents w' = contents w0).
  { intros w0 u Hf.
    unfold handlers.RegisterPublicKeyHandler. rewrite Hb.
    unfold_monad. rewrite Hv. cbn [negb]. rewrite Hf. world_simpl.
    rewrite (find_some_selected _ (fun r => (User_ID r =? User_ID u)%N) _ _
                                Hf (N.eqb_refl _)).
    eexists _, _. split; [reflexivity|]. world_simpl.
    split.
    { apply find_overwrite with (x := u); auto using N.eqb_refl.
      apply (find_some_true _ _ _ Hf). }
    repeat split. }
  split.
  - intros u Hf.
    destruct (Hrun w u Hf) as (w' & u' & Hr & Hf' & Hk & Hn & He & Hc).
    exists w', u'. repeat (split; [assumption|]).
    destruct (Hrun w' u' Hf') as (w'' & _ & Hr' & _).
    now rewrite Hr'.
  - intros Hf.
    unfold handlers.RegisterPublicKeyHandler. rewrite Hb.
    unfold_monad. rewrite Hv. cbn [negb]. now rewrite Hf.
Qed.

(** The two handlers that only read -- the list and the detail of a
    record -- leave the state exactly as it was, whatever the request;
    asking for a nonce changes no table and no counter either (it can
    only use up random bytes). *)
Theorem reading_handlers_change_no_table (w : World) :
  (forall c : Context unit,
      snd (serve (handlers.ListContentHandler c) w) = w)
  /\ (forall c : Context unit,
         snd (serve (handlers.GetContentDetailHandler c) w) = w)
  /\ (forall c : Context unit,
         let w' := snd (serve (handlers.GetNonceHandler c) w) in
         users w' = users w /\ contents w' = contents w
         /\ users_seq w' = users_seq w /\ contents_seq w' = contents_seq w
         /\ now w' = now w).
Proof.
  split; [|split]; intros c.
  - unfold handlers.ListContentHandler.
    destruct (len (GetHeader c "Authorization") =? 0)%nat; [reflexivity|].
    unfold_monad.
    destruct (handlers.userAddressOf _); reflexivity.
  - unfold handlers.GetContentDetailHandler.
    destruct (len (Param c "id") =? 0)%nat; [reflexivity|].
    destruct (len (GetHeader c "Authorization") =? 0)%nat; [reflexivity|].
    unfold_monad.
    destruct (handlers.userAddressOf _); [|reflexivity].
    destruct (find _ (contents w)); reflexivity.
  - unfold handlers.GetNonceHandler.
    destruct (len (Query c "address") =? 0)%nat; [now cbn|].
    unfold_monad.
    destruct (find _ (users w)); [now cbn|].
    destruct (32 <=? List.length (entropy w))%nat; now cbn.
Qed.

End MoreAuth.

Section MoreContent.
Context {E : External}.
Import database.

(** Creating a record for a known address. *)
Lemma Create_known (c : Context CreateContentRequest) (w : World)
      (req : CreateContentRequest) (a : string) (owner : User) :
  ShouldBindJSON c CreateContentRequest_binding = Some req ->
  GetHeader c "Authorization" <> EmptyString ->
  handlers.userAddressOf (GetHeader c "Authorization") = Ret a ->
  find (Where_address a) (users w) = Some owner ->
  (32 <= List.length (entropy w))%nat ->
  serve (handlers.CreateContentHandler c) w
  = ({| Status := StatusOK;
        Body := JObj [("id", JNum (contents_seq w + 1)%N);
                      ("success", JBool true)] |},
     with_contents
       (with_entropy w (skipn 32 (entropy w)))
       (contents w ++
        [{| Content_ID := contents_seq w + 1;
            Content_UserAddress := a;
            Content_Title := Create_Title req;
            Content_EncryptedData := Create_EncryptedData req;
            Content_EncryptedKey := Create_EncryptedKey req;
            Content_IV := Create_IV req;
            Content_Nonce := next_nonce (entropy w);
            Content_CreatedAt := now w;
            Content_UpdatedAt := now w |}])%list
       (contents_seq w + 1)).
Proof.
  intros Hb Hh Ha Hf He.
  unfold handlers.CreateContentHandler.
  rewrite Hb, (nonempty_len _ Hh).
  unfold_monad. rewrite Ha. cbn [negb]. rewrite Hf.
  apply Nat.leb_le in He. rewrite He. reflexivity.
Qed.

(** What is stored comes back: after a record has been created for an
    address, a decrypt request for the id that was returned, carrying
    the record's first nonce and a signature of that address over the
    challenge, releases exactly the title, ciphertext, wrapped key and
    IV that were submitted. *)
Theorem created_record_is_released_as_submitted
        (c1 : Context CreateContentRequest) (c2 : Context DecryptContentRequest)
        (w : World) (creq : CreateContentRequest)
        (dreq : DecryptContentRequest) (a : string) (owner : User) :
  store_ok w ->
  ShouldBindJSON c1 CreateContentRequest_binding = Some creq ->
  GetHeader c1 "Authorization" <> EmptyString ->
  handlers.userAddressOf (GetHeader c1 "Authorization") = Ret a ->
  find (Where_address a) (users w) = Some owner ->
  (64 <= List.length (entropy w))%nat ->
  ShouldBindJSON c2 DecryptContentRequest_binding = Some dreq ->
  GetHeader c2 "Authorization" <> EmptyString ->
  handlers.userAddressOf (GetHeader c2 "Authorization") = Ret a ->
  Decrypt_ContentID dreq = (contents_seq w + 1)%N ->
  Decrypt_Nonce dreq = next_nonce (entropy w) ->
  utils.VerifyEthereumSignature
    (utils.GenerateDecryptMessage (Decrypt_ContentID dreq) (Decrypt_Nonce dreq))
    (Decrypt_Signature dreq) a = Ret true ->
  exists w1 w2,
    serve (handlers.CreateContentHandler c1) w
    = ({| Status := StatusOK;
          Body := JObj [("id", JNum (contents_seq w + 1)%N);
                        ("success", JBool true)] |}, w1)
    /\ serve (handlers.DecryptContentHandler c2) w1
       = ({| Status := StatusOK;
             Body :=
               JObj [("content",
                      ContentDetailResponse
                        (contents_seq w + 1)%N (Create_Title creq)
                        "[ENCRYPTED - DECRYPT ON CLIENT]" (now w));
                     ("encrypted_data", JStr (Create_EncryptedData creq));
                     ("encrypted_key", JStr (Create_EncryptedKey creq));
                     ("iv", JStr (Create_IV creq));
                     ("success", JBool true)] |}, w2).
Proof.
  intros [_ [_ Hle _]] Hb1 Hh1 Ha1 Hf He Hb2 Hh2 Ha2 Hid Hn Hv.
  pose proof (Create_known c1 w creq a owner Hb1 Hh1 Ha1 Hf) as Hcreate.
  match type of Hcreate with
  | _ -> _ = (_, ?w1) => set (w1' := w1) in *
  end.
  match eval cbv delta [w1'] in w1' with
  | with_contents _ (_ ++ [?row]) _ =>
      destruct (Decrypt_authorized c2 w1' dreq a row Hb2 Hh2 Ha2 Hv)
        as (w2 & _ & Hr & _)
  end.
  - subst w1'. world_simpl. apply find_app_new.
    + apply find_none_of_all_false. intros r Hr.
      rewrite Forall_forall in Hle. specialize (Hle r Hr).
      unfold Where_id_user_address.
      replace (Content_ID r =? Decrypt_ContentID dreq)%N with false;
        [reflexivity|].
      symmetry. apply N.eqb_neq. lia.
    + unfold Where_id_user_address. cbn [Content_ID Content_UserAddress].
      rewrite Hid, N.eqb_refl. apply String.eqb_refl.
  - cbn [Content_Nonce]. now rewrite Hn.
  - subst w1'. world_simpl. rewrite length_skipn. lia.
  - exists w1', w2. split; [apply Hcreate; lia|].
    rewrite Hr. reflexivity.
Qed.

(** A decrypt request is answered 200 only if the signature over the
    challenge the server builds from the request's id and nonce verifies
    for the header's address, a record with that id belongs to that
    address, and the request's nonce is the one stored for the record;
    what is released is that record's envelope. *)
Theorem decrypt_releases_only_to_owner_with_current_nonce
        (c : Context DecryptContentRequest) (w w' : World) (resp : Response) :
  serve (handlers.DecryptContentHandler c) w = (resp, w') ->
  Status resp = StatusOK ->
  exists req a content,
    ShouldBindJSON c DecryptContentRequest_binding = Some req
    /\ handlers.userAddressOf (GetHeader c "Authorization") = Ret a
    /\ utils.VerifyEthereumSignature
         (utils.GenerateDecryptMessage (Decrypt_ContentID req)
                                       (Decrypt_Nonce req))
         (Decrypt_Signature req) a = Ret true
    /\ In content (contents w)
    /\ Content_ID content = Decrypt_ContentID req
    /\ Content_UserAddress content = a
    /\ Content_Nonce content = Decrypt_Nonce req
    /\ Body resp = envelope content.
Proof.
  intros Hrun Hok.
  destruct (Decrypt_ok_inv c w resp w' Hrun Hok)
    as (req & a & content & Hb & Hh & Ha & Hv & Hf & Hn & He).
  destruct (Decrypt_authorized c w req a content Hb Hh Ha Hv Hf Hn He)
    as (w1 & _ & Hr & _).
  rewrite Hr in Hrun. injection Hrun as <- _.
  exists req, a, content.
  apply find_some in Hf as [Hin Hp].
  unfold Where_id_user_address in Hp.
  apply andb_prop in Hp as [Hid Hown].
  apply N.eqb_eq in Hid. apply String.eqb_eq in Hown.
  repeat (split; [assumption|]). reflexivity.
Qed.

(** A decrypt request, whatever it is answered, leaves the users alone
    and touches no record but the one whose id it names: what the
    server holds under any other id -- nonce included -- is as
    before. *)
Theorem decrypt_touches_one_record
        (c : Context DecryptContentRequest) (w : World)
        (req : DecryptContentRequest) (otherID : N) (owner : string) :
  ShouldBindJSON c DecryptContentRequest_binding = Some req ->
  otherID <> Decrypt_ContentID req ->
  users (snd (serve (handlers.DecryptContentHandler c) w)) = users w
  /\ find (Where_id_user_address otherID owner)
          (contents (snd (serve (handlers.DecryptContentHandler c) w)))
     = find (Where_id_user_address otherID owner) (contents w).
Proof.
  intros Hb Hother.
  unfold handlers.DecryptContentHandler. rewrite Hb.
  destruct (len (GetHeader c "Authorization") =? 0)%nat; [now split|].
  unfold_monad.
  destruct (handlers.userAddressOf _) as [a|]; [|now split].
  destruct (utils.VerifyEthereumSignature _ _ _) as [[|]|]; cbn [negb];
    try now split.
  destruct (find _ (contents w)) as [content|] eqn:Hf; [|now split].
  destruct (String.eqb _ _); cbn [negb]; [|now split].
  destruct (32 <=? List.length (entropy w))%nat; [|now split].
  world_simpl.
  rewrite (find_some_selected
             _ (fun r => (Content_ID r =? Content_ID content)%N) _ _
             Hf (N.eqb_refl _)).
  cbn [snd]. world_simpl. split; [reflexivity|].
  pose proof (find_some_true _ _ _ Hf) as Hp.
  unfold Where_id_user_address in Hp.
  apply andb_prop in Hp as [Hid _]. apply N.eqb_eq in Hid.
  apply find_overwrite_other.
  - unfold Where_id_user_address. world_simpl.
    replace (Content_ID content =? otherID)%N with false; [reflexivity|].
    symmetry. apply N.eqb_neq. congruence.
  - intros r _ Hsame. apply N.eqb_eq in Hsame.
    unfold Where_id_user_address.
    replace (Content_ID r =? otherID)%N with false; [reflexivity|].
    symmetry. apply N.eqb_neq. congruence.
Qed.

End MoreContent.

Section ListingFacts.
Import database.

Lemma insert_desc_perm (c : EncryptedContent) (l : list EncryptedContent) :
  Permutation (insert_desc c l) (c :: l).
Proof.
  induction l as [|h t IH]; cbn [insert_desc]; [reflexivity|].
  destruct (Content_CreatedAt h <=? Content_CreatedAt c); [reflexivity|].
  rewrite IH. apply perm_swap.
Qed.

Lemma insert_desc_sorted (c : EncryptedContent) (l : list EncryptedContent) :
  StronglySorted newest_first l -> StronglySorted newest_first (insert_desc c l).
Proof.
  induction 1 as [|h t Ht IH Hh]; cbn [insert_desc].
  - repeat constructor.
  - destruct (Content_CreatedAt h <=? Content_CreatedAt c) eqn:Hle.
    + apply Z.leb_le in Hle. constructor; [now constructor|].
      constructor; [exact Hle|].
      eapply Forall_impl; [|exact Hh].
      unfold newest_first. cbn beta. intros b Hb. lia.
    + apply Z.leb_gt in Hle. constructor; [exact IH|].
      apply (Permutation_Forall (Permutation_sym (insert_desc_perm c t))).
      constructor; [unfold newest_first; lia|exact Hh].
Qed.

Lemma order_created_at_desc_perm (l : list EncryptedContent) :
  Permutation (order_created_at_desc l) l.
Proof.
  unfold order_created_at_desc.
  induction l as [|c l IH]; cbn [fold_right]; [reflexivity|].
  rewrite insert_desc_perm. now constructor.
Qed.

Lemma order_created_at_desc_sorted (l : list EncryptedContent) :
  StronglySorted newest_first (order_created_at_desc l).
Proof.
  unfold order_created_at_desc.
  induction l as [|c l IH]; cbn [fold_right]; [constructor|].
  now apply insert_desc_sorted.
Qed.

End ListingFacts.

Section MoreReading.
Context {E : External}.
Import database.

(** The list a caller gets: with any non-empty [Authorization] header
    the answer is 200 and lists exactly the records whose owner is the
    header's address -- every one of them once, none of another owner --
    ordered from the newest to the oldest; a header of an address that
    owns nothing, known or not, gets the empty list. *)
Theorem list_returns_own_records_newest_first
        (c : Context unit) (w : World) (a : string) :
  GetHeader c "Authorization" <> EmptyString ->
  handlers.userAddressOf (GetHeader c "Authorization") = Ret a ->
  exists rows,
    serve (handlers.ListContentHandler c) w
    = ({| Status := StatusOK; Body := listing rows |}, w)
    /\ Permutation rows (filter (Where_user_address a) (contents w))
    /\ StronglySorted newest_first rows
    /\ (forall r, In r rows <-> In r (contents w) /\ Content_UserAddress r = a).
Proof.
  intros Hh Ha.
  exists (order_created_at_desc (filter (Where_user_address a) (contents w))).
  split; [|split; [|split]].
  - unfold handlers.ListContentHandler. rewrite (nonempty_len _ Hh).
    unfold_monad. now rewrite Ha.
  - apply order_created_at_desc_perm.
  - apply order_created_at_desc_sorted.
  - intros r. split.
    + intros Hin.
      apply (Permutation_in _ (order_created_at_desc_perm _)) in Hin.
      apply filter_In in Hin as [Hin Hp].
      split; [exact Hin|]. now apply String.eqb_eq in Hp.
    + intros [Hin Hown].
      apply (Permutation_in _ (Permutation_sym (order_created_at_desc_perm _))).
      apply filter_In. split; [exact Hin|].
      unfold Where_user_address. now apply String.eqb_eq.
Qed.

Lemma itoa_not_empty (n : N) : itoa n <> EmptyString.
Proof.
  unfold itoa. destruct n as [|p]; [discriminate|].
  cbn [N.to_uint].
  pose proof (DecimalPos.Unsigned.to_uint_nonnil p) as Hnil.
  destruct (Pos.to_uint p); [now destruct Hnil|discriminate..].
Qed.

(** The detail of a record is an ownership-checked read of the nonce its
    decryption needs.  Where SQLite matches an id column with the
    decimal text of a number as it matches it with the number: for a
    record of the header's address the answer shows the stored nonce,
    and a decrypt request for that id that carries this nonce and a
    signature of the address over the challenge is authorized; for an
    id under which the address owns nothing the answer is 404. *)
Theorem detail_shows_the_nonce_that_decrypt_accepts
        (c : Context unit) (w : World) (id : N) (a : string) :
  (forall n m, sqlite_int_eq_text n (itoa m) = (n =? m)%N) ->
  Param c "id" = itoa id ->
  GetHeader c "Authorization" <> EmptyString ->
  handlers.userAddressOf (GetHeader c "Authorization") = Ret a ->
  (forall content,
      find (Where_id_user_address id a) (contents w) = Some content ->
      serve (handlers.GetContentDetailHandler c) w
      = ({| Status := StatusOK; Body := detail content |}, w)
      /\ forall (c2 : Context DecryptContentRequest)
                (req : DecryptContentRequest),
          ShouldBindJSON c2 DecryptContentRequest_binding = Some req ->
          GetHeader c2 "Authorization" = GetHeader c "Authorization" ->
          Decrypt_ContentID req = id ->
          Decrypt_Nonce req = Content_Nonce content ->
          utils.VerifyEthereumSignature
            (utils.GenerateDecryptMessage id (Content_Nonce content))
            (Decrypt_Signature req) a = Ret true ->
          (32 <= List.length (entropy w))%nat ->
          fst (serve (handlers.DecryptContentHandler c2) w)
          = {| Status := StatusOK; Body := envelope content |})
  /\ (find (Where_id_user_address id a) (contents w) = None ->
      serve (handlers.GetContentDetailHandler c) w
      = ({| Status := StatusNotFound;
            Body := ErrorResponse "Content not found" |}, w)).
Proof.
  intros Hsql Hp Hh Ha.
  assert (Hfind : find (Where_idtext_user_address (Param c "id") a) (contents w)
                  = find (Where_id_user_address id a) (contents w)).
  { assert (Hpred : forall r,
               Where_idtext_user_address (Param c "id") a r
               = Where_id_user_address id a r).
    { intros r. unfold Where_idtext_user_address, Where_id_user_address.
      now rewrite Hp, Hsql. }
    induction (contents w) as [|r l IH]; cbn [find]; [reflexivity|].
    now rewrite Hpred, IH. }
  assert (Hrun : serve (handlers.GetContentDetailHandler c) w
                 = match find (Where_id_user_address id a) (contents w) with
                   | Some content =>
                       ({| Status := StatusOK; Body := detail content |}, w)
                   | None =>
                       ({| Status := StatusNotFound;
                           Body := ErrorResponse "Content not found" |}, w)
                   end).
  { unfold handlers.GetContentDetailHandler.
    rewrite Hp at 1. rewrite (nonempty_len _ (itoa_not_empty id)).
    rewrite (nonempty_len _ Hh).
    unfold_monad. rewrite Ha. cbn [negb]. rewrite Hfind.
    destruct (find (Where_id_user_address id a) (contents w)); reflexivity. }
  split.
  - intros content Hf. split; [now rewrite Hrun, Hf|].
    intros c2 req Hb Hh2 Hid Hn Hv He.
    rewrite <- Hh2 in Hh, Ha. subst id. rewrite <- Hn in Hv.
    destruct (Decrypt_authorized c2 w req a content Hb Hh Ha Hv Hf
                                 (eq_sym Hn) He)
      as (w' & _ & Hr & _).
    now rewrite Hr.
  - intros Hf. now rewrite Hrun, Hf.
Qed.

(** The credential of a login opens the content operations: after a
    login was answered 200 for a 42-byte address, a request to create a
    record that presents that address, a colon and anything behind it
    is served. *)
Theorem login_credential_is_accepted_by_create
        (c1 : Context LoginRequest) (c2 : Context CreateContentRequest)
        (w w1 : World) (resp : Response)
        (req : LoginRequest) (creq : CreateContentRequest) (nonce : string) :
  serve (handlers.LoginHandler c1) w = (resp, w1) ->
  Status resp = StatusOK ->
  ShouldBindJSON c1 LoginRequest_binding = Some req ->
  len (Login_Address req) = 42%nat ->
  ShouldBindJSON c2 CreateContentRequest_binding = Some creq ->
  GetHeader c2 "Authorization" = Login_Address req ++ ":" ++ nonce ->
  (32 <= List.length (entropy w1))%nat ->
  fst (serve (handlers.CreateContentHandler c2) w1)
  = {| Status := StatusOK;
       Body := JObj [("id", JNum (contents_seq w1 + 1)%N);
                     ("success", JBool true)] |}.
Proof.
  intros Hrun Hok Hb1 Hl Hb2 Hh He.
  destruct (Login_ok_inv c1 w resp w1 Hrun Hok) as (req' & Hb & Hv & Hcase).
  rewrite Hb1 in Hb. injection Hb as <-.
  assert (Hknown : exists u',
             find (Where_address (Login_Address req)) (users w1) = Some u').
  { destruct Hcase as [(u & Hf & Hle) | (Hf & Hle)].
    - destruct (Login_known c1 w req u Hb1 Hv Hf Hle) as (w2 & u' & Hr & Hf' & _).
      rewrite Hr in Hrun. injection Hrun as _ <-. now exists u'.
    - destruct (Login_unknown c1 w req Hb1 Hv Hf Hle) as (w2 & u' & Hr & Hf' & _).
      rewrite Hr in Hrun. injection Hrun as _ <-. now exists u'. }
  destruct Hknown as (u' & Hf').
  rewrite (Create_known c2 w1 creq (Login_Address req) u'); auto.
  - rewrite Hh. intros Heq.
    pose proof (credential_not_empty (Login_Address req) nonce) as Hne.
    rewrite Heq in Hne. discriminate.
  - rewrite Hh. now apply userAddressOf_credential.
Qed.

(** A record is created only for an address that is a user: whenever
    the answer is 200, the first 42 bytes of the header are the address
    of a row of [users], and exactly one record has been appended --
    owned by that address, under the next id, with a nonce of its own
    and the submitted title, ciphertext, wrapped key and IV -- while
    [users] is as before. *)
Theorem create_stores_for_known_addresses_only
        (c : Context CreateContentRequest) (w w' : World) (resp : Response) :
  serve (handlers.CreateContentHandler c) w = (resp, w') ->
  Status resp = StatusOK ->
  exists req a owner row,
    ShouldBindJSON c CreateContentRequest_binding = Some req
    /\ handlers.userAddressOf (GetHeader c "Authorization") = Ret a
    /\ find (Where_address a) (users w) = Some owner
    /\ contents w' = (contents w ++ [row])%list
    /\ users w' = users w
    /\ Content_ID row = (contents_seq w + 1)%N
    /\ Content_UserAddress row = a
    /\ Content_Nonce row = next_nonce (entropy w)
    /\ Content_Title row = Create_Title req
    /\ Content_EncryptedData row = Create_EncryptedData req
    /\ Content_EncryptedKey row = Create_EncryptedKey req
    /\ Content_IV row = Create_IV req
    /\ Body resp = JObj [("id", JNum (Content_ID row)); ("success", JBool true)].
Proof.
  intros Hrun Hok.
  assert (Hinv : exists req a owner,
             ShouldBindJSON c CreateContentRequest_binding = Some req
             /\ GetHeader c "Authorization" <> EmptyString
             /\ handlers.userAddressOf (GetHeader c "Authorization") = Ret a
             /\ find (Where_address a) (users w) = Some owner
             /\ (32 <= List.length (entropy w))%nat).
  { revert Hrun Hok. unfold handlers.CreateContentHandler.
    destruct (ShouldBindJSON c CreateContentRequest_binding) as [req|] eqn:Hb;
      [|unfold_monad; not_ok].
    destruct (len (GetHeader c "Authorization") =? 0)%nat eqn:Hh;
      [unfold_monad; not_ok|].
    destruct (userAddressOf_returns (GetHeader c "Authorization")) as [a Ha].
    unfold_monad. rewrite Ha. cbn [negb].
    destruct (find _ (users w)) as [owner|] eqn:Hf; [|not_ok].
    destruct (32 <=? List.length (entropy w))%nat eqn:He; [|not_ok].
    intros _ _. exists req, a, owner.
    repeat split; auto.
    - intros Heq. rewrite Heq in Hh. discriminate.
    - now apply Nat.leb_le. }
  destruct Hinv as (req & a & owner & Hb & Hh & Ha & Hf & He).
  rewrite (Create_known c w req a owner Hb Hh Ha Hf He) in Hrun.
  injection Hrun as <- <-.
  eexists req, a, owner, _.
  repeat (split; [eassumption|]).
  world_simpl. split; [reflexivity|].
  repeat split.
Qed.

End MoreReading.

(* ================================================================== *)
(** * More concrete runs, with the instance [Toy.lib] *)
(* ================================================================== *)

Module Runs.
Import Toy.
Import database.

Ltac run := vm_compute; reflexivity.

Lemma vault_store_ok : store_ok vault.
Proof.
  split; split; cbn [vault users contents users_seq contents_seq map
                     alice_row bob_row record1 User_ID User_Address
                     User_Nonce Content_ID Content_Nonce].
  - repeat constructor; cbn; intuition discriminate.
  - repeat constructor; cbn; intuition discriminate.
  - repeat constructor; cbn; lia.
  - repeat constructor; run.
  - repeat constructor; cbn; intuition discriminate.
  - repeat constructor; cbn; lia.
  - repeat constructor; run.
Qed.

(** SQLite reads the decimal text of a number as that number. *)
Lemma lib_reads_decimal_ids (n m : N) :
  sqlite_int_eq_text n (itoa m) = (n =? m)%N.
Proof.
  cbn [sqlite_int_eq_text lib]. unfold parseN, itoa.
  rewrite NilEmpty.usu. cbn [option_map].
  rewrite DecimalN.Unsigned.of_to. apply N.eqb_sym.
Qed.

(** ** package utils *)


(** Two decrypt challenges for record 7 and one nonce, the id written
    in two ways. *)
Lemma GenerateDecryptMessage_injective_witness :
  (3 + 4 = 7)%N /\ nonce_of 3 = nonce_of 3.
Proof.
  apply (GenerateDecryptMessage_injective (3 + 4) 7 (nonce_of 3) (nonce_of 3)).
  run.
Defined.

(** Two login challenges for alice and one nonce. *)
Lemma GenerateMessageForSigning_injective_witness :
  alice = addressHex alice_key /\ nonce_of 3 = nonce_of 3.
Proof.
  apply (GenerateMessageForSigning_injective
           alice (addressHex alice_key) (nonce_of 3) (nonce_of 3)).
  - run.
  - run.
Defined.

(** The message "hello" in a pair of quotes, and without. *)
Lemma stripQuotes_strips_one_enclosing_pair_witness :
  utils.stripQuotes
    (String utils.quote ("hello" ++ String utils.quote EmptyString))
  = Ret "hello"
  /\ utils.stripQuotes "hello" = Ret "hello".
Proof.
  split.
  - apply (proj1 (stripQuotes_strips_one_enclosing_pair
                    (String utils.quote
                            ("hello" ++ String utils.quote EmptyString)))).
    reflexivity.
  - apply (proj2 (stripQuotes_strips_one_enclosing_pair "hello")).
    intros m Heq. vm_compute in Heq. discriminate Heq.
Defined.

(** alice's signature of "hello" written without its prefix. *)
Lemma signature_prefix_optional_but_lower_case_witness :
  let bare := String.substring 2 130 (sign alice_key "hello" 0) in
  utils.VerifyEthereumSignature "hello" bare alice
  = utils.VerifyEthereumSignature "hello" ("0x" ++ bare) alice
  /\ utils.VerifyEthereumSignature "hello" ("0X" ++ bare) alice = Ret false.
Proof.
  intros bare.
  destruct (signature_prefix_optional_but_lower_case "hello" bare alice)
    as [Hopt Hupper].
  split; [apply Hopt; run|exact Hupper].
Defined.


(** A header that is alice's address and nothing else. *)
Lemma userAddressOf_is_the_first_42_bytes_witness :
  handlers.userAddressOf alice = Ret alice.
Proof.
  destruct (userAddressOf_is_the_first_42_bytes alice)
    as (a & Hrun & _ & _ & Hshort).
  rewrite Hrun, Hshort; [reflexivity|].
  vm_compute. repeat constructor.
Defined.

(** ** The store *)

(** The state after alice's first login on the fresh database. *)
Lemma reachable_store_ok_witness :
  store_ok (snd (serve (handlers.LoginHandler hello_login)
                       (fresh_world (draw 1 ++ draw 2) 1700000000))).
Proof.
  apply reachable_store_ok.
  apply reach_login, reach_fresh.
Defined.



(** alice logs in on the vault: bob's row and the records stay. *)
Lemma login_touches_one_identity_witness :
  contents (snd (serve (handlers.LoginHandler challenge_login) vault))
  = contents vault
  /\ find (Where_address bob)
          (users (snd (serve (handlers.LoginHandler challenge_login) vault)))
     = find (Where_address bob) (users vault).
Proof.
  apply (login_touches_one_identity
           challenge_login vault
           {| Login_Address := alice;
              Login_Signature :=
                sign alice_key
                     (utils.GenerateMessageForSigning alice (nonce_of 160)) 0;
              Login_Message :=
                utils.GenerateMessageForSigning alice (nonce_of 160);
              Login_Nonce := nonce_of 160 |}
           bob).
  - exact vault_store_ok.
  - run.
  - vm_compute. discriminate.
Defined.

(** ** Authentication *)

(** alice registers a key on the vault; carol, who is unknown, cannot. *)
Lemma register_stores_key_and_keeps_nonce_witness :
  let c := register alice "alice's key" "register"
                    (sign alice_key "register" 0) in
  exists w' u',
    serve (handlers.RegisterPublicKeyHandler c) vault
    = ({| Status := StatusOK; Body := JObj [("success", JBool true)] |}, w')
    /\ find (Where_address alice) (users w') = Some u'
    /\ User_PublicKey u' = "alice's key"
    /\ User_Nonce u' = nonce_of 160
    /\ entropy w' = entropy vault
    /\ contents w' = contents vault
    /\ fst (serve (handlers.RegisterPublicKeyHandler c) w')
       = {| Status := StatusOK; Body := JObj [("success", JBool true)] |}.
Proof.
  intros c.
  refine (proj1 (register_stores_key_and_keeps_nonce
                   c vault
                   {| Register_Address := alice;
                      Register_PublicKey := "alice's key";
                      Register_Signature := sign alice_key "register" 0;
                      Register_Message := "register" |} _ _)
                alice_row _).
  - run.
  - run.
  - run.
Defined.

(** ** Content *)

(** alice stores a record on the vault and asks for it back. *)
Lemma created_record_is_released_as_submitted_witness :
  let credential := alice ++ ":" ++ nonce_of 160 in
  let c1 := create credential "note" in
  let c2 := signed_decrypt credential alice_key 2 "m" (nonce_of 3) in
  exists w1 w2,
    serve (handlers.CreateContentHandler c1) vault
    = ({| Status := StatusOK;
          Body := JObj [("id", JNum 2); ("success", JBool true)] |}, w1)
    /\ serve (handlers.DecryptContentHandler c2) w1
       = ({| Status := StatusOK;
             Body :=
               JObj [("content",
                      ContentDetailResponse
                        2 "note" "[ENCRYPTED - DECRYPT ON CLIENT]" 1700000000);
                     ("encrypted_data", JStr "ciphertext");
                     ("encrypted_key", JStr "wrapped key");
                     ("iv", JStr "iv");
                     ("success", JBool true)] |}, w2).
Proof.
  intros credential c1 c2.
  refine (created_record_is_released_as_submitted
            c1 c2 vault
            {| Create_Title := "note"; Create_EncryptedKey := "wrapped key";
               Create_IV := "iv"; Create_EncryptedData := "ciphertext" |}
            {| Decrypt_ContentID := 2;
               Decrypt_Signature :=
                 sign alice_key (utils.GenerateDecryptMessage 2 (nonce_of 3)) 0;
               Decrypt_Message := "m"; Decrypt_Nonce := nonce_of 3 |}
            alice alice_row _ _ _ _ _ _ _ _ _ _ _ _).
  - exact vault_store_ok.
  - run.
  - vm_compute. discriminate.
  - run.
  - run.
  - vm_compute. repeat constructor.
  - run.
  - vm_compute. discriminate.
  - run.
  - run.
  - run.
  - run.
Defined.

(** alice's new record on the vault. *)
Lemma create_stores_for_known_addresses_only_witness :
  let c := create (alice ++ ":" ++ nonce_of 160) "note" in
  exists req a owner row,
    ShouldBindJSON c CreateContentRequest_binding = Some req
    /\ handlers.userAddressOf (GetHeader c "Authorization") = Ret a
    /\ find (Where_address a) (users vault) = Some owner
    /\ contents (snd (serve (handlers.CreateContentHandler c) vault))
       = (contents vault ++ [row])%list
    /\ users (snd (serve (handlers.CreateContentHandler c) vault))
       = users vault
    /\ Content_ID row = (contents_seq vault + 1)%N
    /\ Content_UserAddress row = a
    /\ Content_Nonce row = next_nonce (entropy vault)
    /\ Content_Title row = Create_Title req
    /\ Content_EncryptedData row = Create_EncryptedData req
    /\ Content_EncryptedKey row = Create_EncryptedKey req
    /\ Content_IV row = Create_IV req
    /\ Body (fst (serve (handlers.CreateContentHandler c) vault))
       = JObj [("id", JNum (Content_ID row)); ("success", JBool true)].
Proof.
  intros c.
  apply (create_stores_for_known_addresses_only
           c vault (snd (serve (handlers.CreateContentHandler c) vault))).
  - apply surjective_pairing.
  - run.
Defined.

(** alice's authorized decrypt of record 1 on the vault. *)
Lemma decrypt_releases_only_to_owner_with_current_nonce_witness :
  let c := signed_decrypt (alice ++ ":" ++ nonce_of 160) alice_key 1
                          "m" (nonce_of 192) in
  exists req a content,
    ShouldBindJSON c DecryptContentRequest_binding = Some req
    /\ handlers.userAddressOf (GetHeader c "Authorization") = Ret a
    /\ utils.VerifyEthereumSignature
         (utils.GenerateDecryptMessage (Decrypt_ContentID req)
                                       (Decrypt_Nonce req))
         (Decrypt_Signature req) a = Ret true
    /\ In content (contents vault)
    /\ Content_ID content = Decrypt_ContentID req
    /\ Content_UserAddress content = a
    /\ Content_Nonce content = Decrypt_Nonce req
    /\ Body (fst (serve (handlers.DecryptContentHandler c) vault))
       = envelope content.
Proof.
  intros c.
  apply (decrypt_releases_only_to_owner_with_current_nonce
           c vault (snd (serve (handlers.DecryptContentHandler c) vault))).
  - apply surjective_pairing.
  - run.
Defined.

(** alice stores a second record, then decrypts the first: the second
    keeps its nonce. *)
Lemma decrypt_touches_one_record_witness :
  let credential := alice ++ ":" ++ nonce_of 160 in
  let w := snd (serve (handlers.CreateContentHandler
                         (create credential "note")) vault) in
  let c := signed_decrypt credential alice_key 1 "m" (nonce_of 192) in
  users (snd (serve (handlers.DecryptContentHandler c) w)) = users w
  /\ find (Where_id_user_address 2 alice)
          (contents (snd (serve (handlers.DecryptContentHandler c) w)))
     = find (Where_id_user_address 2 alice) (contents w).
Proof.
  intros credential w c.
  apply (decrypt_touches_one_record
           c w {| Decrypt_ContentID := 1;
                  Decrypt_Signature :=
                    sign alice_key
                         (utils.GenerateDecryptMessage 1 (nonce_of 192)) 0;
                  Decrypt_Message := "m"; Decrypt_Nonce := nonce_of 192 |}
           2 alice).
  - run.
  - discriminate.
Defined.

(** alice's list on the vault. *)
Lemma list_returns_own_records_newest_first_witness :
  exists rows,
    serve (handlers.ListContentHandler
             (list_contents (alice ++ ":" ++ nonce_of 160))) vault
    = ({| Status := StatusOK; Body := listing rows |}, vault)
    /\ Permutation rows (filter (Where_user_address alice) (contents vault))
    /\ StronglySorted newest_first rows
    /\ (forall r, In r rows <->
                  In r (contents vault) /\ Content_UserAddress r = alice).
Proof.
  apply (list_returns_own_records_newest_first
           (list_contents (alice ++ ":" ++ nonce_of 160)) vault alice).
  - vm_compute. discriminate.
  - run.
Defined.

(** alice reads the nonce of record 1 and decrypts with it; bob gets
    404 for the same id. *)
Lemma detail_shows_the_nonce_that_decrypt_accepts_witness :
  let credential := alice ++ ":" ++ nonce_of 160 in
  serve (handlers.GetContentDetailHandler (get_detail credential "1")) vault
  = ({| Status := StatusOK; Body := detail record1 |}, vault)
  /\ fst (serve (handlers.DecryptContentHandler
                   (signed_decrypt credential alice_key 1 "m" (nonce_of 192)))
                vault)
     = {| Status := StatusOK; Body := envelope record1 |}
  /\ serve (handlers.GetContentDetailHandler
              (get_detail (bob ++ ":" ++ nonce_of 176) "1")) vault
     = ({| Status := StatusNotFound;
           Body := ErrorResponse "Content not found" |}, vault).
Proof.
  intros credential.
  destruct (proj1 (detail_shows_the_nonce_that_decrypt_accepts
                     (get_detail credential "1") vault 1 alice
                     lib_reads_decimal_ids eq_refl
                     ltac:(vm_compute; discriminate) ltac:(run))
                  record1 ltac:(run))
    as [Hdetail Hdecrypt].
  split; [exact Hdetail|]. split.
  - apply (Hdecrypt
             (signed_decrypt credential alice_key 1 "m" (nonce_of 192))
             {| Decrypt_ContentID := 1;
                Decrypt_Signature :=
                  sign alice_key
                       (utils.GenerateDecryptMessage 1 (nonce_of 192)) 0;
                Decrypt_Message := "m"; Decrypt_Nonce := nonce_of 192 |}).
    + run.
    + run.
    + reflexivity.
    + run.
    + run.
    + vm_compute. repeat constructor.
  - refine (proj2 (detail_shows_the_nonce_that_decrypt_accepts
                     (get_detail (bob ++ ":" ++ nonce_of 176) "1") vault 1 bob
                     lib_reads_decimal_ids eq_refl _ _) _).
    + vm_compute. discriminate.
    + run.
    + run.
Defined.

(** alice logs in on the vault and creates a record with the
    credential she was given. *)
Lemma login_credential_is_accepted_by_create_witness :
  let w1 := snd (serve (handlers.LoginHandler challenge_login) vault) in
  fst (serve (handlers.CreateContentHandler
                (create (alice ++ ":" ++ nonce_of 3) "note")) w1)
  = {| Status := StatusOK;
       Body := JObj [("id", JNum (contents_seq w1 + 1)%N);
                     ("success", JBool true)] |}.
Proof.
  intros w1.
  apply (login_credential_is_accepted_by_create
           challenge_login (create (alice ++ ":" ++ nonce_of 3) "note")
           vault w1
           (fst (serve (handlers.LoginHandler challenge_login) vault))
           {| Login_Address := alice;
              Login_Signature :=
                sign alice_key
                     (utils.GenerateMessageForSigning alice (nonce_of 160)) 0;
              Login_Message :=
                utils.GenerateMessageForSigning alice (nonce_of 160);
              Login_Nonce := nonce_of 160 |}
           {| Create_Title := "note"; Create_EncryptedKey := "wrapped key";
              Create_IV := "iv"; Create_EncryptedData := "ciphertext" |}
           (nonce_of 3)).
  - apply surjective_pairing.
  - run.
  - run.
  - run.
  - run.
  - run.
  - vm_compute. repeat constructor.
Defined.

End Runs.
